(** * The document-extraction orchestrator of [Extraction/extractor.py]

    A shallow embedding of the class [DatabaseExtractor]: the skip gate, the
    document processor [extract_paper], the single-process loop and the
    primary/worker message protocol, with the external collaborators (the
    document loader, the cacher, the record database, wandb, MPI) as a world
    of oracles and an explicit program state. *)

From Stdlib Require Import String Ascii List ZArith Lia Bool Arith.
Import ListNotations.
Local Open Scope string_scope.
Local Open Scope list_scope.
Local Open Scope nat_scope.

(** ** Paths: the three functions of [os.path] (posixpath) the class uses *)

Module PosixPath.

(** [s.rfind(c)]: the last position of [c], or -1. *)
Fixpoint rfind_from (c : ascii) (s : string) (i : Z) (best : Z) : Z :=
  match s with
  | EmptyString => best
  | String a r => rfind_from c r (i + 1)%Z (if Ascii.eqb a c then i else best)
  end.

Definition rfind (c : ascii) (s : string) : Z := rfind_from c s 0%Z (-1)%Z.

(** [s[i:j]] for 0 <= i. *)
Definition slice (s : string) (i j : Z) : string :=
  substring (Z.to_nat i) (Z.to_nat (j - i)) s.

Definition len (s : string) : Z := Z.of_nat (String.length s).

Fixpoint all_dots (s : string) : bool :=
  match s with
  | EmptyString => true
  | String a r => Ascii.eqb a "." && all_dots r
  end.

(** [os.path.split(p)]: head and tail around the last slash; the head loses
    its trailing slashes unless it consists of slashes only. *)
Fixpoint all_slashes (s : string) : bool :=
  match s with
  | EmptyString => true
  | String a r => Ascii.eqb a "/" && all_slashes r
  end.

Fixpoint rstrip_slashes (s : string) : string :=
  match s with
  | EmptyString => EmptyString
  | String a r => if all_slashes s then EmptyString else String a (rstrip_slashes r)
  end.

Definition split (p : string) : string * string :=
  let i := (rfind "/" p + 1)%Z in
  let head := slice p 0%Z i in
  let tail := slice p i (len p) in
  (if all_slashes head then head else rstrip_slashes head, tail).

(** [os.path.splitext(p)]: the extension starts at the last dot, unless that
    dot is before the last slash or only dots precede it in the file name. *)
Definition splitext (p : string) : string * string :=
  let sepIndex := rfind "/" p in
  let dotIndex := rfind "." p in
  if (sepIndex <? dotIndex)%Z then
    if all_dots (slice p (sepIndex + 1)%Z dotIndex) then (p, EmptyString)
    else (slice p 0%Z dotIndex, slice p dotIndex (len p))
  else (p, EmptyString).

Definition startswith_slash (s : string) : bool :=
  match s with String a _ => Ascii.eqb a "/" | EmptyString => false end.

Fixpoint endswith_slash (s : string) : bool :=
  match s with
  | EmptyString => false
  | String a EmptyString => Ascii.eqb a "/"
  | String _ r => endswith_slash r
  end.

(** [os.path.join(a, b)]. *)
Definition join (a b : string) : string :=
  if startswith_slash b then b
  else if Nat.eqb (String.length a) 0 || endswith_slash a then (a ++ b)%string
  else (a ++ "/" ++ b)%string.

End PosixPath.

(** [needle in hay] on Python strings. *)
Fixpoint str_contains (needle hay : string) : bool :=
  if prefix needle hay then true
  else match hay with
       | EmptyString => false
       | String _ r => str_contains needle r
       end.

(** ** Exceptions, messages and events *)

(** The exceptions of the model, all of them instances of Python's
    [Exception]. *)
Inductive exn : Type :=
| NameError (name : string)
| AttributeError (attr : string)
| TimeoutError
| IndexError
| KeyError (key : string)
| FileExistsError (path : string)
| FileNotFoundError (path : string)
| NotADirectoryError (path : string)
| OtherException (descr : string).

Definition is_AttributeError (e : exn) : bool :=
  match e with AttributeError _ => true | _ => false end.

Definition is_TimeoutError (e : exn) : bool :=
  match e with TimeoutError => true | _ => false end.

(** [except Exception]: every exception of the model. *)
Definition is_Exception (e : exn) : bool := true.

(** What an external call does: it returns or it raises. *)
Inductive result (A : Type) : Type :=
| Returns (a : A)
| Raises (e : exn).
Arguments Returns {A} a.
Arguments Raises {A} e.

(** An extracted record, opaque to the orchestrator. *)
Definition record_t : Type := string.

(** The document object as far as the orchestrator touches it. *)
Record document : Type := {
  doc_path : string;
  doc_models : list string;
  doc_attrs : list (string * string);
  doc_hydrated : bool
}.

Definition AWAITING_DATA_TAG : nat := 111.
Definition RETURNING_DATA_TAG : nat := 222.

(** The dictionaries sent to a worker: [{"exit": ..., "document_path": ...}],
    the second key being absent from an exit message. *)
Record message : Type := {
  msg_exit : bool;
  msg_document_path : option string
}.

Inductive payload : Type :=
| PData (d : message)
| PNone
| PEmptyList.

Record envelope : Type := {
  env_src : nat;
  env_dest : nat;
  env_tag : nat;
  env_payload : payload
}.

(** The lines the class prints. *)
Inductive notice : Type :=
| NSkipping (filename : string)
| NCancelled (document_path : string)
| NTook (document_path : string)
| NPaper (number total : nat) (filename : string)
| NProgress (index : nat) (num_papers : Z)
| NExited (document_path : string) (e : exn)
| NWandbConfig
| NExistingRun
| NWholeTook.

Inductive event : Type :=
| EvPrint (n : notice)
| EvFromFile (path : string)
| EvHydrate (path : string)
| EvValidate (path : string)
| EvAlarm (seconds : nat)
| EvRecords (path : string)
| EvFilter
| EvDbWrite (db_name : string) (records : list record_t)
| EvCacheDocument (path : string) (overwrite_cache : bool)
| EvMkdir (path : string)
| EvWandbInit
| EvWandbSave (file : string)
| EvWandbLog (num_papers_processed : nat)
| EvSend (src dest tag : nat) (p : payload)
| EvRecv (receiver src tag : nat) (p : payload)
| EvResolve (method : string).

(** ** Program state and the monad of effects *)

Record state : Type := {
  st_trace : list event;
  st_paths : list string;
  st_dirs : list string;
  st_stores : list (string * list record_t);
  st_cached : list string;
  st_wandb_run : bool;
  st_mail : list envelope;
  st_sched : list nat
}.

Definition initial_state : state :=
  {| st_trace := []; st_paths := []; st_dirs := []; st_stores := [];
     st_cached := []; st_wandb_run := false; st_mail := []; st_sched := [] |}.

Definition with_trace (t : list event) (st : state) : state :=
  {| st_trace := t; st_paths := st_paths st; st_dirs := st_dirs st;
     st_stores := st_stores st; st_cached := st_cached st;
     st_wandb_run := st_wandb_run st; st_mail := st_mail st;
     st_sched := st_sched st |}.

Definition with_paths (p : list string) (st : state) : state :=
  {| st_trace := st_trace st; st_paths := p; st_dirs := st_dirs st;
     st_stores := st_stores st; st_cached := st_cached st;
     st_wandb_run := st_wandb_run st; st_mail := st_mail st;
     st_sched := st_sched st |}.

Definition with_dirs (d : list string) (st : state) : state :=
  {| st_trace := st_trace st; st_paths := st_paths st; st_dirs := d;
     st_stores := st_stores st; st_cached := st_cached st;
     st_wandb_run := st_wandb_run st; st_mail := st_mail st;
     st_sched := st_sched st |}.

Definition with_stores (s : list (string * list record_t)) (st : state) : state :=
  {| st_trace := st_trace st; st_paths := st_paths st; st_dirs := st_dirs st;
     st_stores := s; st_cached := st_cached st;
     st_wandb_run := st_wandb_run st; st_mail := st_mail st;
     st_sched := st_sched st |}.

Definition with_cached (c : list string) (st : state) : state :=
  {| st_trace := st_trace st; st_paths := st_paths st; st_dirs := st_dirs st;
     st_stores := st_stores st; st_cached := c;
     st_wandb_run := st_wandb_run st; st_mail := st_mail st;
     st_sched := st_sched st |}.

Definition with_wandb_run (b : bool) (st : state) : state :=
  {| st_trace := st_trace st; st_paths := st_paths st; st_dirs := st_dirs st;
     st_stores := st_stores st; st_cached := st_cached st;
     st_wandb_run := b; st_mail := st_mail st;
     st_sched := st_sched st |}.

Definition with_mail (m : list envelope) (st : state) : state :=
  {| st_trace := st_trace st; st_paths := st_paths st; st_dirs := st_dirs st;
     st_stores := st_stores st; st_cached := st_cached st;
     st_wandb_run := st_wandb_run st; st_mail := m;
     st_sched := st_sched st |}.

Definition with_sched (s : list nat) (st : state) : state :=
  {| st_trace := st_trace st; st_paths := st_paths st; st_dirs := st_dirs st;
     st_stores := st_stores st; st_cached := st_cached st;
     st_wandb_run := st_wandb_run st; st_mail := st_mail st;
     st_sched := s |}.

(** How a computation ends: with a value, with an exception, blocked for ever
    in a receive nobody answers, or still looping when the fuel of the model
    is spent. *)
Inductive outcome (A : Type) : Type :=
| Ok (a : A)
| Raise (e : exn)
| Blocked
| OutOfFuel.
Arguments Ok {A} a.
Arguments Raise {A} e.
Arguments Blocked {A}.
Arguments OutOfFuel {A}.

Definition M (A : Type) : Type := state -> outcome A * state.

Definition ret {A} (a : A) : M A := fun st => (Ok a, st).

Definition bind {A B} (m : M A) (k : A -> M B) : M B :=
  fun st =>
    match m st with
    | (Ok a, st') => k a st'
    | (Raise e, st') => (Raise e, st')
    | (Blocked, st') => (Blocked, st')
    | (OutOfFuel, st') => (OutOfFuel, st')
    end.

Declare Scope py_scope.
Delimit Scope py_scope with py.
Notation "x <- m ;; k" := (bind m (fun x => k))
  (at level 61, m at next level, right associativity) : py_scope.
Notation "m ;; k" := (bind m (fun _ => k))
  (at level 61, right associativity) : py_scope.
Local Open Scope py_scope.

Definition raise {A} (e : exn) : M A := fun st => (Raise e, st).

Definition lift {A} (r : result A) : M A :=
  match r with
  | Returns a => ret a
  | Raises e => raise e
  end.

(** [try: body except <catches>: handler]. *)
Definition try_except {A} (catches : exn -> bool) (body : M A)
    (handler : exn -> M A) : M A :=
  fun st =>
    match body st with
    | (Raise e, st') => if catches e then handler e st' else (Raise e, st')
    | r => r
    end.

Definition emit (e : event) : M unit :=
  fun st => (Ok tt, with_trace (st_trace st ++ [e]) st).

Definition print (n : notice) : M unit := emit (EvPrint n).

Definition gets {A} (f : state -> A) : M A := fun st => (Ok (f st), st).

Definition modify (f : state -> state) : M unit := fun st => (Ok tt, f st).

Definition when (b : bool) (m : M unit) : M unit := if b then m else ret tt.

Definition mem (s : string) (l : list string) : bool := existsb (String.eqb s) l.

Fixpoint for_each {A} (f : A -> M unit) (l : list A) : M unit :=
  match l with
  | [] => ret tt
  | x :: r => f x ;; for_each f r
  end.

Fixpoint take_first {A} (p : A -> bool) (l : list A) : option (A * list A) :=
  match l with
  | [] => None
  | x :: r =>
      if p x then Some (x, r)
      else match take_first p r with
           | Some (y, r') => Some (y, x :: r')
           | None => None
           end
  end.

(** ** The extractor object *)

(** [comm.Get_rank()] and [comm.Get_size()]. *)
Record comm_world : Type := {
  rank : nat;
  size : nat
}.

(** The attributes [__init__] stores. [comm], [rank], [size] and
    [is_main_thread] exist only when [use_mpi] was true: they are the
    content of [mpi]. *)
Record DatabaseExtractor : Type := {
  models : list string;
  save_root_dir : string;
  cache_dir : option string;
  mpi : option comm_world;
  use_wandb : bool;
  wandb_save_files : list string;
  document_args : list (string * string);
  filter_results : option (list record_t -> result (list record_t));
  is_valid_document : option (document -> result bool)
}.

Definition use_mpi (self : DatabaseExtractor) : bool :=
  match mpi self with Some _ => true | None => false end.

Definition is_main_thread (c : comm_world) : bool := rank c =? 0.

(** [self.cacher = PlainTextCacher(cache_dir) if cache_dir else None]. *)
Definition cacher (self : DatabaseExtractor) : option string :=
  match cache_dir self with
  | Some d => if String.eqb d "" then None else Some d
  | None => None
  end.

(** [not self.use_mpi or <test on the MPI attributes>], short-circuit. *)
Definition not_mpi_or (test : comm_world -> bool) (self : DatabaseExtractor) : bool :=
  match mpi self with
  | None => true
  | Some c => test c
  end.

Definition get_comm (self : DatabaseExtractor) : M comm_world :=
  match mpi self with
  | Some c => ret c
  | None => raise (AttributeError "comm")
  end.

(** The names bound in the body of [class DatabaseExtractor]. *)
Definition class_attributes : list string :=
  ["__init__"; "will_start_extraction"; "create_wandb_run"; "should_open_file";
   "should_process_document"; "configure_document"; "postprocess_records";
   "db_name_for_file"; "extract_paper"; "_extract_single_threaded";
   "_extract_mpi"; "_send_to_worker"; "_exit_worker"; "_start_worker"].

(** The instance attributes [__init__] assigns. *)
Definition instance_attributes (self : DatabaseExtractor) : list string :=
  ["models"; "save_root_dir"; "cache_dir"; "cacher"; "use_mpi"]
  ++ (if use_mpi self then ["comm"; "rank"; "size"; "is_main_thread"] else [])
  ++ ["use_wandb"; "wandb_project"; "wandb_config"; "wandb_run_name";
      "wandb_save_files"; "document_args"; "filter_results"; "is_valid_document"].

(** [getattr(self, name)]: found on the instance or on the class, or
    [AttributeError]. *)
Definition getattr (self : DatabaseExtractor) (name : string) : result unit :=
  if mem name (instance_attributes self) || mem name class_attributes
  then Returns tt
  else Raises (AttributeError name).

(** The external collaborators: what the directory holds, whether the loader
    parses a file, what the cacher and the extraction engine do. *)
Record world : Type := {
  listdir : string -> result (list string);
  from_file : string -> result unit;
  hydrate_document : string -> result unit;
  records : document -> result (list record_t)
}.

Section Extractor.

Variable w : world.

(** *** Run-start setup *)

(** The directory that is to hold a new entry [path]: what precedes the
    last slash of the path, its trailing slashes apart. The empty string
    stands for the working directory. *)
Definition parent_directory (path : string) : string :=
  fst (PosixPath.split (PosixPath.rstrip_slashes path)).

(** Why [os.mkdir(path)] refuses, if it does: the empty path names
    nothing ([FileNotFoundError]), the root exists ([FileExistsError]),
    the parent has to exist ([FileNotFoundError]) and to be a directory
    ([NotADirectoryError]), and the path itself has to be new
    ([FileExistsError]). The state lists the path strings that exist and
    those that are directories; a path is looked up as it is written. *)
Definition mkdir_refusal (path : string) (st : state) : option exn :=
  if String.eqb path "" then Some (FileNotFoundError path)
  else if PosixPath.all_slashes path then Some (FileExistsError path)
  else
    let parent := parent_directory path in
    if PosixPath.all_slashes parent || mem parent (st_dirs st) then
      if mem path (st_paths st) then Some (FileExistsError path) else None
    else if mem parent (st_paths st) then Some (NotADirectoryError path)
    else Some (FileNotFoundError path).

Definition os_mkdir (path : string) : M unit :=
  refusal <- gets (mkdir_refusal path) ;;
  match refusal with
  | Some e => raise e
  | None =>
      emit (EvMkdir path) ;;
      modify (fun st => with_dirs (path :: st_dirs st)
                          (with_paths (path :: st_paths st) st))
  end.

(** [os.path.isdir(path)]; the empty path is no directory. *)
Definition is_directory (path : string) (st : state) : bool :=
  negb (String.eqb path "") && mem path (st_dirs st).

Definition os_path_isdir (path : string) : M bool := gets (is_directory path).

Definition create_wandb_run (self : DatabaseExtractor) : M unit :=
  print NWandbConfig ;;
  emit EvWandbInit ;;
  modify (with_wandb_run true).

Definition will_start_extraction (self : DatabaseExtractor) : M unit :=
  isdir <- os_path_isdir (save_root_dir self) ;;
  when (negb isdir) (os_mkdir (save_root_dir self)) ;;
  when (use_wandb self)
    (run <- gets st_wandb_run ;;
     (if run then print NExistingRun else create_wandb_run self) ;;
     for_each (fun file => emit (EvWandbSave file)) (wandb_save_files self)).

(** *** The skip gate *)

Definition db_name_for_file (self : DatabaseExtractor) (filename : string) : string :=
  let only_filename := snd (PosixPath.split filename) in
  let no_ext_filename := fst (PosixPath.splitext only_filename) in
  PosixPath.join (save_root_dir self) no_ext_filename.

Definition os_path_exists (path : string) : M bool :=
  gets (fun st => mem path (st_paths st)).

Definition should_open_file (self : DatabaseExtractor) (filename : string) : M bool :=
  let db_name := db_name_for_file self filename in
  present <- os_path_exists db_name ;;
  let should_open := negb present in
  when (negb should_open) (print (NSkipping filename)) ;;
  ret should_open.

(** *** The document processor *)

Definition should_process_document (self : DatabaseExtractor) (doc : document) : M bool :=
  match is_valid_document self with
  | None => ret true
  | Some validator =>
      emit (EvValidate (doc_path doc)) ;;
      lift (validator doc)
  end.

Definition setattr (doc : document) (key value : string) : document :=
  {| doc_path := doc_path doc; doc_models := doc_models doc;
     doc_attrs := (key, value)
                  :: filter (fun kv => negb (String.eqb (fst kv) key)) (doc_attrs doc);
     doc_hydrated := doc_hydrated doc |}.

Definition configure_document (self : DatabaseExtractor) (doc : document) : document :=
  let doc := {| doc_path := doc_path doc; doc_models := models self;
                doc_attrs := doc_attrs doc; doc_hydrated := doc_hydrated doc |} in
  fold_left (fun d kv => setattr d (fst kv) (snd kv)) (document_args self) doc.

(** [CDEDatabase(db_name, coder=JSONCoder()).write(records)]: the store
    named [db_name] exists afterwards and holds [records]. *)
Definition db_write (db_name : string) (recs : list record_t) : M unit :=
  emit (EvDbWrite db_name recs) ;;
  modify (fun st => with_stores ((db_name, recs) :: st_stores st)
                      (with_paths (db_name :: st_paths st) st)).

Definition postprocess_records (self : DatabaseExtractor)
    (recs : list record_t) (filename : string) : M unit :=
  recs <- match filter_results self with
          | Some f =>
              if negb (length recs =? 0)
              then emit EvFilter ;; lift (f recs)
              else ret recs
          | None => ret recs
          end ;;
  let db_name := db_name_for_file self filename in
  db_write db_name recs.

Definition Document_from_file (path : string) : M document :=
  emit (EvFromFile path) ;;
  lift (from_file w path) ;;
  ret {| doc_path := path; doc_models := []; doc_attrs := [];
         doc_hydrated := false |}.

(** [self.cacher.hydrate_document(doc, document_path)]; [self.cacher] is
    [None] when [cache_dir] is the empty string. *)
Definition cacher_hydrate_document (self : DatabaseExtractor)
    (doc : document) (document_path : string) : M document :=
  match cacher self with
  | None => raise (AttributeError "hydrate_document")
  | Some _ =>
      emit (EvHydrate document_path) ;;
      lift (hydrate_document w document_path) ;;
      ret {| doc_path := doc_path doc; doc_models := doc_models doc;
             doc_attrs := doc_attrs doc; doc_hydrated := true |}
  end.

Definition cacher_cache_document (self : DatabaseExtractor)
    (doc : document) (document_path : string) (overwrite_cache : bool) : M unit :=
  match cacher self with
  | None => raise (AttributeError "cache_document")
  | Some _ =>
      emit (EvCacheDocument document_path overwrite_cache) ;;
      modify (fun st => with_cached (document_path :: st_cached st) st)
  end.

(** [doc.records]: reading the property runs the extraction. *)
Definition doc_records (doc : document) : M (list record_t) :=
  emit (EvRecords (doc_path doc)) ;;
  lift (records w doc).

(** The function object that line 267 binds to the local name [extract]
    inside [extract_paper]: its body is its docstring. Nothing calls it. *)
Definition extract (self : DatabaseExtractor) (document_dir : string)
    (num_papers : option Z) : M unit :=
  ret tt.

(** [self.<method>(document_dir, num_papers)] inside [extract_paper]: the
    bound method is resolved, then the first argument is evaluated; the
    name [document_dir] is bound neither in [extract_paper] nor in the
    module. *)
Definition call_with_document_dir (method : string) : M unit :=
  emit (EvResolve method) ;;
  raise (NameError "document_dir").

(** Lines 283 to 289, at the indentation of the body of [extract_paper]. *)
Definition dispatch_block (self : DatabaseExtractor) : M unit :=
  when (not_mpi_or is_main_thread self) (will_start_extraction self) ;;
  if not_mpi_or (fun c => size c =? 1) self
  then call_with_document_dir "_extract_single_threaded"
  else call_with_document_dir "_extract_mpi".

(** Lines 240 to 245: the attempt to hydrate the document from the cache.
    The value is the document with [did_use_cache]. *)
Definition hydrate_from_cache (self : DatabaseExtractor) (doc : document)
    (document_path : string) : M (document * bool) :=
  match cache_dir self with
  | Some _ =>
      try_except is_AttributeError
        (doc' <- cacher_hydrate_document self doc document_path ;;
         ret (doc', true))
        (fun _ => ret (doc, false))
  | None => ret (doc, false)
  end.

(** Lines 247 to 260: validation, extraction under the alarm, persistence
    and the cache write. A [TimeoutError] out of [doc.records] is what a
    SIGALRM handler of the calling program raises when the alarm fires. *)
Definition extract_and_store (self : DatabaseExtractor) (doc : document)
    (did_use_cache : bool) (document_path : string) : M unit :=
  valid <- should_process_document self doc ;;
  document_records <-
    (if valid
     then emit (EvAlarm 300) ;;
          try_except is_TimeoutError (doc_records doc) (fun _ => ret [])
     else print (NCancelled document_path) ;;
          ret []) ;;
  postprocess_records self document_records document_path ;;
  when (negb did_use_cache && match cache_dir self with Some _ => true | None => false end)
    (cacher_cache_document self doc document_path true).

(** Lines 237 to 260: the body guarded by the skip gate. *)
Definition process_document (self : DatabaseExtractor) (document_path : string) : M unit :=
  doc <- Document_from_file document_path ;;
  let doc := configure_document self doc in
  hydrated <- hydrate_from_cache self doc document_path ;;
  extract_and_store self (fst hydrated) (snd hydrated) document_path.

Definition extract_paper (self : DatabaseExtractor) (document_path : string) : M unit :=
  should_open <- should_open_file self document_path ;;
  when should_open (process_document self document_path) ;;
  print (NTook document_path) ;;
  dispatch_block self.

End Extractor.

(** ** Work enumeration *)

(** The condition of the list comprehension at lines 299 and 321:
    [filename[0] != '.' and 'records.txt' not in filename]. *)
Definition keep_filename (filename : string) : result bool :=
  match filename with
  | EmptyString => Raises IndexError
  | String c _ =>
      Returns (negb (Ascii.eqb c ".") && negb (str_contains "records.txt" filename))
  end.

Fixpoint work_units (names : list string) : result (list string) :=
  match names with
  | [] => Returns []
  | filename :: rest =>
      match keep_filename filename with
      | Raises e => Raises e
      | Returns keep =>
          match work_units rest with
          | Raises e => Raises e
          | Returns l => Returns (if keep then filename :: l else l)
          end
      end
  end.

(** [filenames[index]] for a non-negative index. *)
Definition list_index (filenames : list string) (index : nat) : M string :=
  match nth_error filenames index with
  | Some filename => ret filename
  | None => raise IndexError
  end.

Definition wandb_log (n : nat) : M unit := emit (EvWandbLog n).

Section Coordinator.

Variable w : world.

(** *** The single-process strategy *)

(** The [for index, filename in enumerate(filenames)] loop, from position
    [index] on. *)
Fixpoint single_threaded_loop (self : DatabaseExtractor) (document_dir : string)
    (num_papers : option Z) (total : nat) (index : nat)
    (filenames : list string) : M unit :=
  match filenames with
  | [] => ret tt
  | filename :: rest =>
      if match num_papers with
         | Some n => (n <? Z.of_nat index)%Z
         | None => false
         end
      then ret tt
      else
        print (NPaper (index + 1) total filename) ;;
        when (use_wandb self) (wandb_log index) ;;
        let full_path := PosixPath.join document_dir filename in
        extract_paper w self full_path ;;
        single_threaded_loop self document_dir num_papers total (S index) rest
  end.

Definition _extract_single_threaded (self : DatabaseExtractor)
    (document_dir : string) (num_papers : option Z) : M unit :=
  names <- lift (listdir w document_dir) ;;
  filenames <- lift (work_units names) ;;
  single_threaded_loop self document_dir num_papers (length filenames) 0 filenames ;;
  print NWholeTook.

(** *** Message passing *)

Definition comm_send (self : DatabaseExtractor) (data : payload)
    (dest tag : nat) : M unit :=
  c <- get_comm self ;;
  emit (EvSend (rank c) dest tag data) ;;
  modify (fun st =>
    with_mail (st_mail st ++ [{| env_src := rank c; env_dest := dest;
                                 env_tag := tag; env_payload := data |}]) st).

(** Taking the oldest message in flight that satisfies [wanted]; without
    one the receive blocks. *)
Definition receive (wanted : envelope -> bool) : M envelope :=
  fun st =>
    match take_first wanted (st_mail st) with
    | Some (e, rest) =>
        (Ok e,
         with_trace (st_trace st ++ [EvRecv (env_dest e) (env_src e) (env_tag e)
                                            (env_payload e)])
           (with_mail rest st))
    | None => (Blocked, st)
    end.

(** [self.comm.recv(source=source, tag=tag)]. *)
Definition comm_recv (self : DatabaseExtractor) (source tag : nat) : M payload :=
  c <- get_comm self ;;
  e <- receive (fun e => (env_dest e =? rank c) && (env_src e =? source)
                         && (env_tag e =? tag)) ;;
  ret (env_payload e).

Definition _send_to_worker (self : DatabaseExtractor) (worker_index : nat)
    (document_path : string) : M unit :=
  let data := {| msg_exit := false; msg_document_path := Some document_path |} in
  comm_send self (PData data) worker_index AWAITING_DATA_TAG.

Definition _exit_worker (self : DatabaseExtractor) (worker_index : nat) : M unit :=
  let data := {| msg_exit := true; msg_document_path := None |} in
  comm_send self (PData data) worker_index AWAITING_DATA_TAG.

(** *** The worker *)

(** One turn of the [while True] loop of [_start_worker]; the value tells
    whether the loop goes on. *)
Definition worker_iteration (self : DatabaseExtractor) : M bool :=
  data <- comm_recv self 0 AWAITING_DATA_TAG ;;
  match data with
  | PData d =>
      if msg_exit d then ret false
      else
        match msg_document_path d with
        | None => raise (KeyError "document_path")
        | Some document_path =>
            try_except is_Exception
              (extract_paper w self document_path ;;
               comm_send self PNone 0 RETURNING_DATA_TAG)
              (fun e =>
                 print (NExited document_path e) ;;
                 comm_send self PEmptyList 0 RETURNING_DATA_TAG) ;;
            ret true
        end
  | PNone | PEmptyList => raise (OtherException "TypeError")
  end.

Fixpoint _start_worker (fuel : nat) (self : DatabaseExtractor) : M unit :=
  match fuel with
  | 0 => fun st => (OutOfFuel, st)
  | S fuel' =>
      continue <- worker_iteration self ;;
      if continue then _start_worker fuel' self else ret tt
  end.

(** *** The primary *)

(** The process of rank [r] of the same program. *)
Definition as_rank (r : nat) (self : DatabaseExtractor) : DatabaseExtractor :=
  {| models := models self; save_root_dir := save_root_dir self;
     cache_dir := cache_dir self;
     mpi := match mpi self with
            | Some c => Some {| rank := r; size := size c |}
            | None => None
            end;
     use_wandb := use_wandb self; wandb_save_files := wandb_save_files self;
     document_args := document_args self; filter_results := filter_results self;
     is_valid_document := is_valid_document self |}.

(** The workers with an assignment in flight. *)
Definition busy_workers (st : state) : list nat :=
  map env_dest
    (filter (fun e => (env_src e =? 0) && (env_tag e =? AWAITING_DATA_TAG)
                      && negb (env_dest e =? 0))
       (st_mail st)).

(** While the primary waits, one of the busy workers, chosen by the
    schedule, takes a turn of its loop. A worker whose turn does not end
    well is gone; nothing comes back from it. *)
Definition let_a_worker_run (self : DatabaseExtractor) : M unit :=
  fun st =>
    match busy_workers st with
    | [] => (Ok tt, st)
    | b :: bs =>
        let choice := hd 0 (st_sched st) in
        let st1 := with_sched (tl (st_sched st)) st in
        let worker := nth (choice mod length (b :: bs)) (b :: bs) b in
        (Ok tt, snd (worker_iteration (as_rank worker self) st1))
    end.

(** [self.comm.recv(source=MPI.ANY_SOURCE, tag=MPI.ANY_TAG, status=status)]
    followed by [status.Get_source()]. *)
Definition comm_recv_any (self : DatabaseExtractor) : M nat :=
  c <- get_comm self ;;
  let_a_worker_run self ;;
  e <- receive (fun e => env_dest e =? rank c) ;;
  ret (env_src e).

(** The [for i in range(1, self.size)] loop of the first turn. *)
Fixpoint fan_out (self : DatabaseExtractor) (document_dir : string)
    (filenames : list string) (workers : list nat) (index : nat) : M nat :=
  match workers with
  | [] => ret index
  | i :: rest =>
      filename <- list_index filenames index ;;
      let full_path := PosixPath.join document_dir filename in
      _send_to_worker self i full_path ;;
      fan_out self document_dir filenames rest (index + 1)
  end.

(** The [while True] loop of the primary. *)
Fixpoint primary_loop (fuel : nat) (self : DatabaseExtractor) (c : comm_world)
    (document_dir : string) (filenames : list string) (num_papers : Z)
    (index n_finished : nat) : M unit :=
  match fuel with
  | 0 => fun st => (OutOfFuel, st)
  | S fuel' =>
      if index =? 0 then
        index <- fan_out self document_dir filenames (seq 1 (size c - 1)) index ;;
        primary_loop fuel' self c document_dir filenames num_papers index n_finished
      else
        finished_worker_index <- comm_recv_any self ;;
        let n_finished := n_finished + 1 in
        when (use_wandb self) (wandb_log n_finished) ;;
        if (n_finished =? index) && (num_papers <=? Z.of_nat index)%Z then ret tt
        else if (Z.of_nat index <? num_papers)%Z then
          print (NProgress index num_papers) ;;
          filename <- list_index filenames index ;;
          let full_path := PosixPath.join document_dir filename in
          _send_to_worker self finished_worker_index full_path ;;
          primary_loop fuel' self c document_dir filenames num_papers
            (index + 1) n_finished
        else
          primary_loop fuel' self c document_dir filenames num_papers
            index n_finished
  end.

Definition _extract_mpi (fuel : nat) (self : DatabaseExtractor)
    (document_dir : string) (num_papers : option Z) : M unit :=
  match mpi self with
  | None => raise (AttributeError "is_main_thread")
  | Some c =>
      if is_main_thread c then
        names <- lift (listdir w document_dir) ;;
        filenames <- lift (work_units names) ;;
        let num_papers := match num_papers with
                          | None => Z.of_nat (length filenames)
                          | Some n => n
                          end in
        primary_loop fuel self c document_dir filenames num_papers 0 0 ;;
        for_each (_exit_worker self) (seq 1 (size c - 1)) ;;
        print NWholeTook
      else _start_worker fuel self
  end.

End Coordinator.

(** * Properties *)

(** ** Vocabulary of the statements *)

(** Events of the document processor and of run-start setup: neither a
    message nor the notice of a worker about a document it gave up. *)
Definition local_event (e : event) : bool :=
  match e with
  | EvSend _ _ _ _ | EvRecv _ _ _ _ | EvPrint (NExited _ _) => false
  | _ => true
  end.

(** Events of run-start setup and of the resolution of a strategy. *)
Definition setup_event (e : event) : bool :=
  match e with
  | EvMkdir _ | EvWandbInit | EvWandbSave _ | EvResolve _
  | EvPrint NWandbConfig | EvPrint NExistingRun => true
  | _ => false
  end.

Definition ends {A} (o : outcome A) : bool :=
  match o with
  | Ok _ | Raise _ => true
  | Blocked | OutOfFuel => false
  end.

(** [m] runs to an end on its own: it neither sends nor receives, leaves the
    messages in flight and the schedule alone, and adds to the trace only
    events allowed by [P]. *)
Definition footprint {A} (P : event -> bool) (m : M A) : Prop :=
  forall st, exists t,
    st_trace (snd (m st)) = st_trace st ++ t /\
    forallb P t = true /\
    st_mail (snd (m st)) = st_mail st /\
    st_sched (snd (m st)) = st_sched st /\
    ends (fst (m st)) = true.

(** A state change that keeps the trace, the mail and the schedule. *)
Definition quiet (f : state -> state) : Prop :=
  forall st, st_trace (f st) = st_trace st /\ st_mail (f st) = st_mail st
             /\ st_sched (f st) = st_sched st.

(** [m] leaves the component [proj] of the state as it found it. *)
Definition preserves {A B} (proj : state -> B) (m : M A) : Prop :=
  forall st, proj (snd (m st)) = proj st.

(** The newest content of a store. *)
Fixpoint store_content (db_name : string) (stores : list (string * list record_t))
    : option (list record_t) :=
  match stores with
  | [] => None
  | (n, recs) :: rest =>
      if String.eqb n db_name then Some recs else store_content db_name rest
  end.

(** The document as [Document.from_file] and [configure_document] leave it,
    hydrated or not. *)
Definition configured_document (self : DatabaseExtractor) (document_path : string)
    (hydrated : bool) : document :=
  let doc := configure_document self
               {| doc_path := document_path; doc_models := []; doc_attrs := [];
                  doc_hydrated := false |} in
  {| doc_path := doc_path doc; doc_models := doc_models doc;
     doc_attrs := doc_attrs doc; doc_hydrated := hydrated |}.

(** How many documents a trace loads. *)
Definition loaded (t : list event) : nat :=
  length (filter (fun e => match e with EvFromFile _ => true | _ => false end) t).

(** *** The protocol as the primary sees it *)

Definition assignment (document_path : string) : payload :=
  PData {| msg_exit := false; msg_document_path := Some document_path |}.

Definition exit_signal : payload :=
  PData {| msg_exit := true; msg_document_path := None |}.

Definition assign_event (document_dir : string) (worker : nat) (filename : string) : event :=
  EvSend 0 worker AWAITING_DATA_TAG (assignment (PosixPath.join document_dir filename)).

Definition report_event (worker : nat) : event :=
  EvRecv 0 worker RETURNING_DATA_TAG PEmptyList.

Definition exit_event (worker : nat) : event :=
  EvSend 0 worker AWAITING_DATA_TAG exit_signal.

Definition assignment_envelope (worker : nat) (document_path : string) : envelope :=
  {| env_src := 0; env_dest := worker; env_tag := AWAITING_DATA_TAG;
     env_payload := assignment document_path |}.

Definition exit_envelope (worker : nat) : envelope :=
  {| env_src := 0; env_dest := worker; env_tag := AWAITING_DATA_TAG;
     env_payload := exit_signal |}.

Definition report_envelope (worker : nat) : envelope :=
  {| env_src := worker; env_dest := 0; env_tag := RETURNING_DATA_TAG;
     env_payload := PEmptyList |}.

(** What the process of rank 0 sends and receives. *)
Definition primary_event (e : event) : bool :=
  match e with
  | EvSend 0 _ _ _ | EvRecv 0 _ _ _ => true
  | _ => false
  end.

Definition primary_view (t : list event) : list event := filter primary_event t.

(** The first turn: one unit to each worker, in order. *)
Fixpoint fan_out_events (document_dir : string) (workers : list nat)
    (filenames : list string) : list event :=
  match workers, filenames with
  | i :: workers', filename :: filenames' =>
      assign_event document_dir i filename
      :: fan_out_events document_dir workers' filenames'
  | _, _ => []
  end.

Fixpoint fan_out_mail (document_dir : string) (workers : list nat)
    (filenames : list string) : list envelope :=
  match workers, filenames with
  | i :: workers', filename :: filenames' =>
      assignment_envelope i (PosixPath.join document_dir filename)
      :: fan_out_mail document_dir workers' filenames'
  | _, _ => []
  end.

(** The later turns: each report is answered by the next pending unit, sent
    to the worker that reported, while units are pending. *)
Fixpoint rounds (document_dir : string) (pending : list string)
    (reporters : list nat) : list event :=
  match reporters with
  | [] => []
  | r :: reporters' =>
      report_event r
      :: match pending with
         | filename :: pending' =>
             assign_event document_dir r filename
             :: rounds document_dir pending' reporters'
         | [] => rounds document_dir [] reporters'
         end
  end.

(** The assignments of a trace: worker and document path. *)
Definition assigned (e : event) : list (nat * string) :=
  match e with
  | EvSend 0 worker _ (PData {| msg_exit := false; msg_document_path := Some p |}) =>
      [(worker, p)]
  | _ => []
  end.

Definition assignments (t : list event) : list (nat * string) := flat_map assigned t.

Definition reports (t : list event) : nat :=
  length (filter (fun e => match e with EvRecv 0 _ _ _ => true | _ => false end) t).

(** Messages in flight that are assignments to distinct workers among 1..K. *)
Definition in_flight (K : nat) (mail : list envelope) : Prop :=
  Forall (fun e => exists p, 1 <= env_dest e <= K /\
                             e = assignment_envelope (env_dest e) p) mail
  /\ NoDup (map env_dest mail).

(** *** Scenarios *)

Module Scenario.

(** Five papers without cache entries (hydration raises [AttributeError]);
    reading the records of the first one times out. *)
Definition corpus : world :=
  {| listdir := fun _ => Returns ["a.xml"; "b.xml"; "c.xml"; "d.xml"; "e.xml"];
     from_file := fun _ => Returns tt;
     hydrate_document := fun _ => Raises (AttributeError "serialize");
     records := fun doc =>
       if String.eqb (doc_path doc) "docs/a.xml" then Raises TimeoutError
       else Returns ["yield strength"] |}.

(** The same papers with cache entries that hydrate. *)
Definition warm_corpus : world :=
  {| listdir := listdir corpus; from_file := from_file corpus;
     hydrate_document := fun _ => Returns tt;
     records := records corpus |}.

(** The same papers, the cache files unreadable. *)
Definition unreadable_cache : world :=
  {| listdir := listdir corpus; from_file := from_file corpus;
     hydrate_document := fun _ => Raises (OtherException "OSError");
     records := records corpus |}.

(** Two papers for three workers. *)
Definition two_papers : world :=
  {| listdir := fun _ => Returns ["a.xml"; "b.xml"];
     from_file := fun _ => Returns tt;
     hydrate_document := fun _ => Returns tt;
     records := fun _ => Returns [] |}.

Definition plain : DatabaseExtractor :=
  {| models := ["YieldStrength"]; save_root_dir := "out";
     cache_dir := Some "docs_cache"; mpi := None; use_wandb := false;
     wandb_save_files := []; document_args := [("skip_elements", "Citation")];
     filter_results := None; is_valid_document := None |}.

(** A validator that turns every document down. *)
Definition picky : DatabaseExtractor :=
  {| models := models plain; save_root_dir := "out";
     cache_dir := Some "docs_cache"; mpi := None; use_wandb := false;
     wandb_save_files := []; document_args := [];
     filter_results := None;
     is_valid_document := Some (fun _ => Returns false) |}.

(** Rank [r] of an MPI run with [n] processes. *)
Definition ranked (r n : nat) : DatabaseExtractor :=
  {| models := models plain; save_root_dir := "out";
     cache_dir := Some "docs_cache";
     mpi := Some {| rank := r; size := n |}; use_wandb := false;
     wandb_save_files := []; document_args := [];
     filter_results := None; is_valid_document := None |}.

(** The output directory exists and holds the store of [a.xml]. *)
Definition a_done : state :=
  with_dirs ["out"] (with_paths ["out/a"; "out"] initial_state).

End Scenario.

(** The test of [comm.recv(source=0, tag=AWAITING_DATA_TAG)] at rank
    [worker]. *)
Definition wanted_by (worker : nat) (e : envelope) : bool :=
  (env_dest e =? worker) && (env_src e =? 0) && (env_tag e =? AWAITING_DATA_TAG).

(** The notices of the worker about documents it gave up. *)
Definition exited_documents (t : list event) : list string :=
  flat_map (fun e => match e with
                     | EvPrint (NExited document_path _) => [document_path]
                     | _ => []
                     end) t.

(** The cache writes of a trace: document path and overwrite flag. *)
Definition cache_writes (t : list event) : list (string * bool) :=
  flat_map (fun e => match e with
                     | EvCacheDocument document_path overwrite =>
                         [(document_path, overwrite)]
                     | _ => []
                     end) t.

(** Hydration, where there is a cacher to attempt it, does not stop the
    document: it returns or raises [AttributeError]. *)
Definition hydration_lets_through (w : world) (self : DatabaseExtractor)
    (document_path : string) : Prop :=
  forall c e,
    cacher self = Some c ->
    hydrate_document w document_path = Raises e ->
    is_AttributeError e = true.

(** The collaborators let the document through to its store: the loader
    returns, the validator, if there is one, gives a verdict, the reading
    of the records returns or times out, and the result filter, if there
    is one, returns. *)
Definition reaches_store (w : world) (self : DatabaseExtractor)
    (document_path : string) : Prop :=
  from_file w document_path = Returns tt /\
  (forall validator doc,
     is_valid_document self = Some validator ->
     doc_path doc = document_path ->
     exists valid, validator doc = Returns valid) /\
  (forall doc,
     doc_path doc = document_path ->
     (exists recs, records w doc = Returns recs)
     \/ records w doc = Raises TimeoutError) /\
  (forall f recs,
     filter_results self = Some f -> exists kept, f recs = Returns kept).

(** *** Vocabulary of the further properties *)

(** The first character is a dot. *)
Definition starts_with_dot (filename : string) : bool :=
  match filename with
  | String c _ => Ascii.eqb c "."
  | EmptyString => false
  end.

(** The test of the list comprehension on a name that is not empty. *)
Definition is_work_unit (filename : string) : bool :=
  negb (starts_with_dot filename) && negb (str_contains "records.txt" filename).

(** What run-start setup does once the output directory is there. *)
Definition wandb_setup_events (self : DatabaseExtractor) (run_open : bool) : list event :=
  if use_wandb self
  then (if run_open then [EvPrint NExistingRun] else [EvPrint NWandbConfig; EvWandbInit])
       ++ map EvWandbSave (wandb_save_files self)
  else [].

(** The number of units the primary hands out under the cap [num_papers]
    with [K] workers: one per worker at least. *)
Definition units_handed_out (K : nat) (num_papers : Z) : nat :=
  Nat.max K (Z.to_nat num_papers).

Definition no_slash (s : string) : bool := negb (str_contains "/" s).

Definition no_dot (s : string) : bool := negb (str_contains "." s).

(** The notices of the single-process strategy itself: the announcement of
    a unit and the closing summary. *)
Definition loop_notice (e : event) : bool :=
  match e with
  | EvPrint (NPaper _ _ _) | EvPrint NWholeTook => true
  | _ => false
  end.

(** The cap lets the position [index] of the single-process loop through. *)
Definition within_cap (num_papers : option Z) (index : nat) : bool :=
  match num_papers with
  | Some n => negb (n <? Z.of_nat index)%Z
  | None => true
  end.

(** The papers of [Scenario.corpus] when the loader cannot parse them. *)
Definition unparsable_corpus : world :=
  {| listdir := listdir Scenario.corpus;
     from_file := fun _ => Raises (OtherException "ParseError");
     hydrate_document := hydrate_document Scenario.corpus;
     records := records Scenario.corpus |}.

(** The extractor of [Scenario.plain] with the empty string as its cache
    directory. *)
Definition without_cacher : DatabaseExtractor :=
  {| models := models Scenario.plain; save_root_dir := "out";
     cache_dir := Some ""; mpi := None; use_wandb := false;
     wandb_save_files := []; document_args := [];
     filter_results := None; is_valid_document := None |}.


(** The extractor of [Scenario.plain] with a validator that fails. *)
Definition with_failing_validator : DatabaseExtractor :=
  {| models := models Scenario.plain; save_root_dir := "out";
     cache_dir := Some "docs_cache"; mpi := None; use_wandb := false;
     wandb_save_files := []; document_args := [];
     filter_results := None;
     is_valid_document := Some (fun _ => Raises (OtherException "ValueError")) |}.

(** What the hydration attempt adds to the trace: there is one when there
    is a cacher. *)
Definition hydration_events (self : DatabaseExtractor) (document_path : string)
    : list event :=
  match cacher self with
  | Some _ => [EvHydrate document_path]
  | None => []
  end.

(** ** Footprints of computations *)

Lemma footprint_ret {A} P (a : A) : footprint P (ret a).
Proof. intros st; exists []; cbn; rewrite app_nil_r; auto. Qed.

Lemma footprint_raise {A} P e : footprint P (@raise A e).
Proof. intros st; exists []; cbn; rewrite app_nil_r; auto. Qed.

Lemma footprint_lift {A} P (r : result A) : footprint P (lift r).
Proof. destruct r; [apply footprint_ret | apply footprint_raise]. Qed.

Lemma footprint_gets {A} P (f : state -> A) : footprint P (gets f).
Proof. intros st; exists []; cbn; rewrite app_nil_r; auto. Qed.

Lemma footprint_emit P e : P e = true -> footprint P (emit e).
Proof. intros H st; exists [e]; cbn; rewrite H; auto. Qed.

Lemma footprint_bind {A B} P (m : M A) (k : A -> M B) :
  footprint P m -> (forall a, footprint P (k a)) -> footprint P (bind m k).
Proof.
  intros Hm Hk st. unfold bind.
  destruct (Hm st) as (t & Ht & HP & Hmail & Hsched & Hend).
  destruct (m st) as [[a|e| |] st1]; cbn in *; try discriminate.
  - destruct (Hk a st1) as (t' & Ht' & HP' & Hmail' & Hsched' & Hend').
    exists (t ++ t'). rewrite Ht', Ht, app_assoc, forallb_app, HP, HP'.
    repeat split; auto; congruence.
  - exists t; auto.
Qed.

Lemma footprint_try_except {A} P catches (m : M A) h :
  footprint P m -> (forall e, footprint P (h e)) -> footprint P (try_except catches m h).
Proof.
  intros Hm Hh st. unfold try_except.
  destruct (Hm st) as (t & Ht & HP & Hmail & Hsched & Hend).
  destruct (m st) as [[a|e| |] st1]; cbn in *; try discriminate.
  - exists t; auto.
  - destruct (catches e).
    + destruct (Hh e st1) as (t' & Ht' & HP' & Hmail' & Hsched' & Hend').
      exists (t ++ t'). rewrite Ht', Ht, app_assoc, forallb_app, HP, HP'.
      repeat split; auto; congruence.
    + exists t; auto.
Qed.

Lemma footprint_when P b (m : M unit) : footprint P m -> footprint P (when b m).
Proof. destruct b; cbn; auto using footprint_ret. Qed.

Lemma footprint_for_each {A} P (f : A -> M unit) l :
  (forall a, footprint P (f a)) -> footprint P (for_each f l).
Proof.
  intros Hf; induction l; cbn; [apply footprint_ret|].
  apply footprint_bind; auto.
Qed.

Lemma footprint_modify P f : quiet f -> footprint P (modify f).
Proof.
  intros Hf st; exists []; cbn; rewrite app_nil_r.
  destruct (Hf st) as (? & ? & ?); auto.
Qed.

Lemma footprint_ends {A} P (m : M A) st : footprint P m -> ends (fst (m st)) = true.
Proof. intros H; destruct (H st) as (t & _ & _ & _ & _ & Hend); exact Hend. Qed.

Ltac footprint_step :=
  first [ apply footprint_bind; [ | intros ? ]
        | apply footprint_try_except; [ | intros ? ]
        | apply footprint_when
        | apply footprint_for_each; intros ?
        | apply footprint_ret | apply footprint_raise | apply footprint_lift
        | apply footprint_gets
        | apply footprint_emit; reflexivity
        | apply footprint_modify; intros ?; cbn; auto
        | match goal with
          | |- footprint _ (if ?b then _ else _) => destruct b
          | |- footprint _ (match ?x with _ => _ end) => destruct x
          end ].

Ltac footprint_auto :=
  repeat (footprint_step
          || unfold process_document, hydrate_from_cache, extract_and_store,
               cacher_hydrate_document, cacher_cache_document,
               should_process_document, postprocess_records, doc_records,
               Document_from_file, db_write, print).

Lemma preserves_ret {A B} (proj : state -> B) (a : A) : preserves proj (ret a).
Proof. intros st; reflexivity. Qed.

Lemma preserves_raise {A B} (proj : state -> B) e : preserves proj (@raise A e).
Proof. intros st; reflexivity. Qed.

Lemma preserves_gets {A B} (proj : state -> B) (f : state -> A) : preserves proj (gets f).
Proof. intros st; reflexivity. Qed.

Lemma preserves_bind {A B C} (proj : state -> C) (m : M A) (k : A -> M B) :
  preserves proj m -> (forall a, preserves proj (k a)) -> preserves proj (bind m k).
Proof.
  intros Hm Hk st. unfold bind. specialize (Hm st).
  destruct (m st) as [[a|e| |] st1]; cbn in *; auto.
  rewrite Hk; auto.
Qed.

Lemma preserves_when {B} (proj : state -> B) b m :
  preserves proj m -> preserves proj (when b m).
Proof. destruct b; cbn; auto using preserves_ret. Qed.

Lemma preserves_for_each {A B} (proj : state -> B) (f : A -> M unit) l :
  (forall a, preserves proj (f a)) -> preserves proj (for_each f l).
Proof.
  intros Hf; induction l; cbn; [apply preserves_ret|].
  apply preserves_bind; auto.
Qed.

Ltac preserves_step :=
  first [ apply preserves_bind; [ | intros ? ]
        | apply preserves_when
        | apply preserves_for_each; intros ?
        | apply preserves_ret | apply preserves_raise | apply preserves_gets
        | match goal with
          | |- preserves _ (if ?b then _ else _) => destruct b
          | |- preserves _ (match ?x with _ => _ end) => destruct x
          end
        | intros ?; reflexivity ].

Ltac preserves_auto := repeat preserves_step.

(** Something that ends, followed by something that always raises, raises. *)
Lemma bind_raises {A B} (m : M A) (k : A -> M B) st :
  ends (fst (m st)) = true ->
  (forall a st1, exists e, fst (k a st1) = Raise e) ->
  exists e, fst (bind m k st) = Raise e.
Proof.
  unfold bind. intros Hend Hk.
  destruct (m st) as [[a|e| |] st1]; cbn in *; try discriminate; eauto.
Qed.

(** ** The dispatch block at the end of [extract_paper] *)

(** [extract] is bound inside [extract_paper] only: neither the class nor
    an instance has an attribute of that name. *)
Lemma extract_is_not_an_attribute self :
  getattr self "extract" = Raises (AttributeError "extract").
Proof. unfold getattr, instance_attributes. destruct (use_mpi self); reflexivity. Qed.

Lemma dispatch_block_footprint self : footprint setup_event (dispatch_block self).
Proof. unfold dispatch_block, call_with_document_dir. footprint_auto. Qed.

(** The dispatch block never completes: it ends in an exception. *)
Lemma dispatch_block_raises self st :
  exists e, fst (dispatch_block self st) = Raise e.
Proof.
  unfold dispatch_block. apply bind_raises.
  - apply (footprint_ends setup_event). footprint_auto.
  - intros _ st1. destruct (not_mpi_or (fun c => size c =? 1) self); cbn; eauto.
Qed.

(** What the dispatch block adds: events of run-start setup and of the
    resolution of a strategy; the stores and the cache stay as they were. *)
Lemma dispatch_block_effect self st :
  exists t,
    st_trace (snd (dispatch_block self st)) = st_trace st ++ t /\
    forallb setup_event t = true /\
    st_stores (snd (dispatch_block self st)) = st_stores st /\
    st_cached (snd (dispatch_block self st)) = st_cached st.
Proof.
  destruct (dispatch_block_footprint self st) as (t & Ht & HP & _).
  exists t; repeat split; auto.
  - assert (H : preserves st_stores (dispatch_block self)); [ | apply H ].
    unfold dispatch_block, call_with_document_dir, will_start_extraction,
      os_mkdir, create_wandb_run, print. preserves_auto.
  - assert (H : preserves st_cached (dispatch_block self)); [ | apply H ].
    unfold dispatch_block, call_with_document_dir, will_start_extraction,
      os_mkdir, create_wandb_run, print. preserves_auto.
Qed.

Lemma setup_event_not_in t e :
  forallb setup_event t = true -> setup_event e = false -> ~ In e t.
Proof.
  intros Hall He Hin. rewrite forallb_forall in Hall.
  apply Hall in Hin. congruence.
Qed.

(** ** The document processor *)

Section Processor.
Variable w : world.

Lemma process_document_footprint self document_path :
  footprint local_event (process_document w self document_path).
Proof. footprint_auto. Qed.

Lemma extract_paper_footprint self document_path :
  footprint local_event (extract_paper w self document_path).
Proof.
  unfold extract_paper, should_open_file, os_path_exists, print,
    dispatch_block, call_with_document_dir.
  footprint_auto.
Qed.

(** [extract_paper] never returns: whatever the document, the call ends in
    an exception, at the latest in the dispatch block. *)
Lemma extract_paper_raises self document_path st :
  exists e, fst (extract_paper w self document_path st) = Raise e.
Proof.
  unfold extract_paper. apply bind_raises.
  { apply (footprint_ends local_event).
    unfold should_open_file, os_path_exists. footprint_auto. }
  intros should_open st1. apply bind_raises.
  { apply (footprint_ends local_event). apply footprint_when.
    apply process_document_footprint. }
  intros _ st2. apply bind_raises; [ reflexivity | ].
  intros _ st3. apply dispatch_block_raises.
Qed.

(** A unit without a store passes the gate and is processed. *)
Lemma extract_paper_not_skipped self document_path st :
  mem (db_name_for_file self document_path) (st_paths st) = false ->
  extract_paper w self document_path st
  = (process_document w self document_path ;;
     print (NTook document_path) ;;
     dispatch_block self)%py st.
Proof.
  intros H. unfold extract_paper, should_open_file, os_path_exists, gets, bind at 1 2.
  rewrite H. cbn. unfold bind at 1. reflexivity.
Qed.

(** A unit with a store is skipped. *)
Lemma extract_paper_skipped self document_path st :
  mem (db_name_for_file self document_path) (st_paths st) = true ->
  extract_paper w self document_path st
  = (print (NSkipping document_path) ;;
     print (NTook document_path) ;;
     dispatch_block self)%py st.
Proof.
  intros H. unfold extract_paper, should_open_file, os_path_exists, gets, bind at 1 2.
  rewrite H. cbn. reflexivity.
Qed.

End Processor.

Lemma cacher_configured self d :
  cache_dir self = Some d -> String.eqb d "" = false -> cacher self = Some d.
Proof. unfold cacher. intros -> ->. reflexivity. Qed.

Lemma configure_document_path self doc :
  doc_path (configure_document self doc) = doc_path doc.
Proof.
  unfold configure_document.
  set (d0 := {| doc_path := doc_path doc; doc_models := models self;
                doc_attrs := doc_attrs doc; doc_hydrated := doc_hydrated doc |}).
  change (doc_path doc) with (doc_path d0). clearbody d0.
  revert d0. induction (document_args self) as [|kv l IH]; intros d0; cbn; auto.
  rewrite IH. reflexivity.
Qed.

Lemma configure_document_hydrated self doc :
  doc_hydrated (configure_document self doc) = doc_hydrated doc.
Proof.
  unfold configure_document.
  set (d0 := {| doc_path := doc_path doc; doc_models := models self;
                doc_attrs := doc_attrs doc; doc_hydrated := doc_hydrated doc |}).
  change (doc_hydrated doc) with (doc_hydrated d0). clearbody d0.
  revert d0. induction (document_args self) as [|kv l IH]; intros d0; cbn; auto.
  rewrite IH. reflexivity.
Qed.

(** A document that was not hydrated is the configured document itself. *)
Lemma configured_document_cold self document_path :
  configured_document self document_path false
  = configure_document self
      {| doc_path := document_path; doc_models := []; doc_attrs := [];
         doc_hydrated := false |}.
Proof.
  unfold configured_document.
  pose proof (configure_document_hydrated self
                {| doc_path := document_path; doc_models := []; doc_attrs := [];
                   doc_hydrated := false |}) as H.
  destruct (configure_document self _); cbn in *. congruence.
Qed.

Ltac unfold_processor :=
  unfold process_document, hydrate_from_cache, extract_and_store,
    Document_from_file, cacher_hydrate_document,
    should_process_document, doc_records, postprocess_records, db_write,
    cacher_cache_document, print, emit, lift, raise, ret, modify, when,
    try_except, bind.

(** Replaces the run of the dispatch block by the events [td] it adds. *)
Ltac run_dispatch :=
  try match goal with
  | |- context [dispatch_block ?self ?S] =>
      let td := fresh "td" in
      let Htd := fresh "Htd" in
      let Hsetup := fresh "Hsetup" in
      let Hstores := fresh "Hstores" in
      let Hcached := fresh "Hcached" in
      destruct (dispatch_block_effect self S) as (td & Htd & Hsetup & Hstores & Hcached);
      rewrite ?Htd, ?Hstores, ?Hcached; clear Htd Hstores Hcached
  end;
  cbn [fst snd st_trace st_stores st_cached with_trace with_stores with_paths with_cached];
  rewrite ?configure_document_path; cbn [doc_path];
  repeat rewrite <- app_assoc; cbn [app].

(** Splits a membership in an explicit list that ends in setup events. *)
Ltac in_cases H :=
  cbn [In] in H;
  repeat match type of H with
         | _ \/ _ => destruct H as [H|H]
         end;
  try discriminate H;
  try (exfalso; eapply setup_event_not_in; [ eassumption | | exact H ]; reflexivity).

Ltac split_all := repeat match goal with |- _ /\ _ => split end.

(** Case analysis on what the collaborators answer. *)
Ltac answers :=
  repeat match goal with
         | |- context [match ?x with _ => _ end] =>
             lazymatch type of x with
             | result (list _) => destruct x as [?|[]] eqn:?
             | result _ => destruct x as [[]|[]] eqn:?
             | bool => destruct x eqn:?
             | option _ => destruct x eqn:?
             end; cbn
         end.

(** Case analysis on what the collaborators answer, the exceptions left
    as they are. *)
Ltac reply :=
  match goal with
  | |- context [match ?x with _ => _ end] =>
      lazymatch type of x with
      | result (list _) => destruct x as [?|?] eqn:?
      | result bool => destruct x as [[|]|?] eqn:?
      | result unit => destruct x as [[]|?] eqn:?
      | bool => destruct x eqn:?
      | option _ => destruct x eqn:?
      end; cbn
  end.

Ltac replies := repeat reply.

Ltac settle :=
  run_dispatch; eexists; split; [ reflexivity | ]; split_all; unfold not; intros;
  repeat match goal with
         | H : In _ _ |- _ => in_cases H
         | H : Returns _ = Raises _ |- _ => discriminate H
         | H : Raises _ = Returns _ |- _ => discriminate H
         | H : Raises _ = Raises _ |- _ => injection H as H; subst
         | H : _ = _ :> event |- _ => injection H as H; subst
         end;
  try solve [ cbn [In]; intuition (eauto; try discriminate; try congruence) ].

(** ** Enumeration and store names *)

Example work_units_of_a_directory :
  work_units ["a.xml"; "b.xml"; ".hidden.xml"; "a_records.txt"]
  = Returns ["a.xml"; "b.xml"].
Proof. reflexivity. Qed.

Example db_name_of_a_paper :
  db_name_for_file Scenario.plain "docs/a.tar.xml" = "out/a.tar".
Proof. reflexivity. Qed.

(** ** The skip gate *)

(** The gate opens a file exactly when no store of its base name exists. *)
Lemma should_open_file_spec self filename st :
  should_open_file self filename st
  = (Ok (negb (mem (db_name_for_file self filename) (st_paths st))),
     if mem (db_name_for_file self filename) (st_paths st)
     then with_trace (st_trace st ++ [EvPrint (NSkipping filename)]) st
     else st).
Proof.
  unfold should_open_file, os_path_exists, gets, bind.
  destruct (mem _ _); reflexivity.
Qed.

(** A skipped unit is neither loaded nor extracted nor written. *)
Lemma skipped_unit_untouched w self document_path st :
  mem (db_name_for_file self document_path) (st_paths st) = true ->
  exists td,
    st_trace (snd (extract_paper w self document_path st))
    = st_trace st ++ EvPrint (NSkipping document_path)
                     :: EvPrint (NTook document_path) :: td /\
    forallb setup_event td = true /\
    st_stores (snd (extract_paper w self document_path st)) = st_stores st /\
    st_cached (snd (extract_paper w self document_path st)) = st_cached st.
Proof.
  intros H. rewrite (extract_paper_skipped w _ _ _ H).
  unfold print, emit, bind. run_dispatch. eauto.
Qed.

(** C2, at a unit whose store exists: the gate says skip and nothing is
    loaded, extracted or written, but the call does not return: after the
    notices it runs the dispatch block and ends in [NameError]. *)
Example skipped_unit_raises_name_error :
  should_open_file Scenario.plain "docs/a.xml" Scenario.a_done
  = (Ok false,
     with_trace [EvPrint (NSkipping "docs/a.xml")] Scenario.a_done)
  /\ extract_paper Scenario.corpus Scenario.plain "docs/a.xml" Scenario.a_done
     = (Raise (NameError "document_dir"),
        with_trace [EvPrint (NSkipping "docs/a.xml");
                    EvPrint (NTook "docs/a.xml");
                    EvResolve "_extract_single_threaded"] Scenario.a_done).
Proof. split; reflexivity. Qed.

(** ** Timeout *)

(** C3, at a single-process run over five papers of which the first times
    out: the empty collection is stored for it, then [extract_paper] raises
    [NameError] and the run ends there; the second paper is never loaded. *)
Example timed_out_unit_ends_single_process_run :
  _extract_single_threaded Scenario.corpus Scenario.plain "docs" None initial_state
  = (Raise (NameError "document_dir"),
     {| st_trace := [EvPrint (NPaper 1 5 "a.xml"); EvFromFile "docs/a.xml";
                     EvHydrate "docs/a.xml"; EvAlarm 300; EvRecords "docs/a.xml";
                     EvDbWrite "out/a" []; EvCacheDocument "docs/a.xml" true;
                     EvPrint (NTook "docs/a.xml"); EvMkdir "out";
                     EvResolve "_extract_single_threaded"];
        st_paths := ["out"; "out/a"]; st_dirs := ["out"];
        st_stores := [("out/a", [])]; st_cached := ["docs/a.xml"];
        st_wandb_run := false; st_mail := []; st_sched := [] |}).
Proof. reflexivity. Qed.

(** ** The cap of the single-process loop *)

(** Whatever the corpus, the single-process loop does not get past the first
    unit it attempts: the call of [extract_paper] raises. *)
Lemma single_threaded_loop_raises_at_first_unit w self document_dir num_papers
    total index filename rest st :
  match num_papers with
  | Some n => (n <? Z.of_nat index)%Z
  | None => false
  end = false ->
  exists e,
    fst (single_threaded_loop w self document_dir num_papers total index
           (filename :: rest) st) = Raise e.
Proof.
  intros Hcap. cbn [single_threaded_loop]. rewrite Hcap.
  apply bind_raises; [ reflexivity | ]. intros _ st1.
  apply bind_raises.
  { apply (footprint_ends local_event). unfold wandb_log. footprint_auto. }
  intros _ st2. unfold bind.
  destruct (extract_paper_raises w self (PosixPath.join document_dir filename) st2)
    as (e & He).
  destruct (extract_paper w self _ st2) as [o st3]. cbn in He. subst o.
  exists e. reflexivity.
Qed.

(** C7, at [num_papers = 1] against five papers: one paper is processed, not
    two; the first call of [extract_paper] raises [NameError] out of the
    loop. *)
Example single_process_run_stops_after_first_unit :
  let run := _extract_single_threaded Scenario.warm_corpus Scenario.plain "docs"
               (Some 1%Z) initial_state in
  fst run = Raise (NameError "document_dir") /\
  loaded (st_trace (snd run)) = 1 /\
  map fst (st_stores (snd run)) = ["out/a"].
Proof. repeat split; reflexivity. Qed.

(** ** Cache hydration *)

(** C6 fails for a hydration failure other than [AttributeError]: with a
    cache file that cannot be read the exception leaves [extract_paper]
    right after the hydration attempt, and nothing is stored. *)
Example hydration_failure_propagates :
  extract_paper Scenario.unreadable_cache Scenario.plain "docs/b.xml" initial_state
  = (Raise (OtherException "OSError"),
     with_trace [EvFromFile "docs/b.xml"; EvHydrate "docs/b.xml"] initial_state).
Proof. reflexivity. Qed.

(** C6 as amended: with caching configured, a hydration that raises
    [AttributeError] is caught without a notice and the document goes on as
    on a cold start, through [extract_and_store] with [did_use_cache] false;
    any other exception of the hydration leaves [extract_paper] at once. *)
Theorem hydration_attribute_error_is_cold_start :
  forall w self document_path d st,
    cache_dir self = Some d ->
    String.eqb d "" = false ->
    mem (db_name_for_file self document_path) (st_paths st) = false ->
    from_file w document_path = Returns tt ->
    let st2 := with_trace (st_trace st ++ [EvFromFile document_path;
                                           EvHydrate document_path]) st in
    (forall a, hydrate_document w document_path = Raises (AttributeError a) ->
       extract_paper w self document_path st
       = (extract_and_store w self (configured_document self document_path false)
            false document_path ;;
          print (NTook document_path) ;;
          dispatch_block self) st2) /\
    (forall e, hydrate_document w document_path = Raises e ->
       is_AttributeError e = false ->
       extract_paper w self document_path st = (Raise e, st2)).
Proof.
  intros w self document_path d st Hdir Hd Hgate Hload st2. subst st2.
  pose proof (cacher_configured _ _ Hdir Hd) as Hcacher.
  rewrite (extract_paper_not_skipped w _ _ _ Hgate).
  split.
  - intros a Hh. unfold bind at 1 3.
    unfold process_document, hydrate_from_cache, Document_from_file,
      cacher_hydrate_document, try_except, bind at 1 2.
    rewrite Hdir, Hcacher, Hload. cbn. unfold bind at 1 2 3; cbn.
    rewrite Hh. cbn. rewrite <- app_assoc. cbn.
    rewrite configured_document_cold. reflexivity.
  - intros e Hh He. unfold bind at 1.
    unfold process_document, hydrate_from_cache, Document_from_file,
      cacher_hydrate_document, try_except, bind at 1 2.
    rewrite Hdir, Hcacher, Hload. cbn. unfold bind at 1 2 3; cbn.
    rewrite Hh. cbn. rewrite He. rewrite <- app_assoc. reflexivity.
Qed.

(** The amended C6 at the second paper of the corpus, whose hydration raises
    [AttributeError]. *)
Lemma hydration_attribute_error_is_cold_start_witness :
  cache_dir Scenario.plain = Some "docs_cache" /\
  (forall a, hydrate_document Scenario.corpus "docs/b.xml" = Raises (AttributeError a) ->
     extract_paper Scenario.corpus Scenario.plain "docs/b.xml" initial_state
     = (extract_and_store Scenario.corpus Scenario.plain
          (configured_document Scenario.plain "docs/b.xml" false) false "docs/b.xml" ;;
        print (NTook "docs/b.xml") ;;
        dispatch_block Scenario.plain)
         (with_trace [EvFromFile "docs/b.xml"; EvHydrate "docs/b.xml"] initial_state)).
Proof.
  split; [ reflexivity | ].
  apply (hydration_attribute_error_is_cold_start Scenario.corpus Scenario.plain
           "docs/b.xml" "docs_cache" initial_state); reflexivity.
Defined.

(** The dispatch block writes nothing to the cache. *)
Lemma cache_writes_setup t : forallb setup_event t = true -> cache_writes t = [].
Proof.
  unfold cache_writes. induction t as [|e t IH]; cbn; intros H; auto.
  apply andb_prop in H as [He Ht]. rewrite (IH Ht), app_nil_r.
  destruct e; try reflexivity; discriminate.
Qed.

(** Case analysis along a document that the collaborators let through:
    [Hval], [Hrec] and [Hfilter] give their answers. *)
Ltac let_through Hval Hrec Hfilter :=
  match goal with
  | |- context [match ?x with _ => _ end] =>
      lazymatch type of x with
      | result (list _) =>
          lazymatch x with
          | records _ ?doc =>
              let H := fresh "Hrecords" in
              destruct (Hrec doc) as [[? H]|H];
              [ cbn; apply configure_document_path | rewrite H | rewrite H ]
          | ?f ?recs =>
              let H := fresh "Hkept" in
              destruct (Hfilter f recs) as [? H];
              [ first [ assumption | reflexivity ] | rewrite H ]
          end
      | result bool =>
          lazymatch x with
          | ?v ?doc =>
              let H := fresh "Hverdict" in
              destruct (Hval v doc) as [[|] H];
              [ first [ assumption | reflexivity ]
              | cbn; apply configure_document_path
              | rewrite H | rewrite H ]
          end
      | bool => destruct x eqn:?
      | option _ => destruct x eqn:?
      end; cbn
  end.

(** Names the events around the store write and the cache write. *)
Ltac around_the_write :=
  first [ eexists _, [_], _; reflexivity
        | eexists _, [_; _], _; reflexivity
        | eexists _, [_; _; _], _; reflexivity
        | eexists _, [_; _; _; _], _; reflexivity
        | eexists _, [_; _; _; _; _], _; reflexivity
        | eexists _, [_; _; _; _; _; _], _; reflexivity
        | eexists _, [_; _; _; _; _; _; _], _; reflexivity ].

(** C9: with caching configured, a non-skipped document that is processed
    through to its store is written to the cache exactly when its hydration
    did not take place: after a hydration that succeeded there is no cache
    write and the cache is as before; after one that raised
    [AttributeError] there is exactly one cache write, for this document,
    with overwrite, right after the store was written. *)
Theorem cache_written_exactly_on_cold_start :
  forall w self document_path d st,
    cache_dir self = Some d ->
    String.eqb d "" = false ->
    mem (db_name_for_file self document_path) (st_paths st) = false ->
    reaches_store w self document_path ->
    let run := extract_paper w self document_path st in
    let db_name := db_name_for_file self document_path in
    exists added,
      st_trace (snd run) = st_trace st ++ added /\
      (hydrate_document w document_path = Returns tt ->
         cache_writes added = [] /\
         st_cached (snd run) = st_cached st /\
         In (EvHydrate document_path) added /\
         exists recs, In (EvDbWrite db_name recs) added) /\
      (forall a,
         hydrate_document w document_path = Raises (AttributeError a) ->
         cache_writes added = [(document_path, true)] /\
         st_cached (snd run) = document_path :: st_cached st /\
         exists recs before after,
           added = before ++ EvDbWrite db_name recs
                             :: EvCacheDocument document_path true :: after).
Proof.
  intros w self document_path d st Hdir Hd Hgate (Hfrom & Hval & Hrec & Hfilter)
         run db_name.
  subst run db_name.
  rewrite (extract_paper_not_skipped w _ _ _ Hgate).
  pose proof (cacher_configured _ _ Hdir Hd) as Hcacher.
  unfold bind at 1.
  unfold_processor. rewrite Hdir, Hcacher, Hfrom. cbn.
  destruct (hydrate_document w document_path) as [[]|e1] eqn:Hh; cbn;
    [ | destruct (is_AttributeError e1) eqn:He1;
        [ destruct e1; try discriminate | ] ]; cbn.
  all: repeat let_through Hval Hrec Hfilter.
  all: run_dispatch; eexists; (split; [ reflexivity | ]).
  all: split; [ intros Hwarm | intros a Hcold ];
    try discriminate;
    try (injection Hcold as ->; cbn in He1; discriminate).
  all: unfold cache_writes; cbn [flat_map app];
    try match goal with
        | Hs : forallb setup_event ?t = true |- _ =>
            fold (cache_writes t); rewrite (cache_writes_setup t Hs)
        end.
  all: split; [ reflexivity | ]; split; [ reflexivity | ].
  all: try (split; [ cbn [In]; auto 10 | eexists; cbn [In]; eauto 10 ]).
  all: around_the_write.
Qed.

(** C9 at the second paper of the corpus, without a cache entry and with
    one that hydrates. *)
Lemma cache_written_exactly_on_cold_start_witness :
  (let run := extract_paper Scenario.corpus Scenario.plain "docs/b.xml"
                initial_state in
   cache_writes (st_trace (snd run)) = [("docs/b.xml", true)] /\
   st_cached (snd run) = ["docs/b.xml"]) /\
  (let run := extract_paper Scenario.warm_corpus Scenario.plain "docs/b.xml"
                initial_state in
   cache_writes (st_trace (snd run)) = [] /\
   st_cached (snd run) = []).
Proof.
  split.
  - destruct (cache_written_exactly_on_cold_start Scenario.corpus Scenario.plain
                "docs/b.xml" "docs_cache" initial_state)
      as (added & Ht & _ & Hcold).
    + reflexivity.
    + reflexivity.
    + reflexivity.
    + split; [ reflexivity | ].
      split; [ intros validator doc Hv; discriminate Hv | ].
      split; [ | intros f recs Hf; discriminate Hf ].
      intros doc Hdoc. left. eexists. cbn. rewrite Hdoc. reflexivity.
    + destruct (Hcold "serialize" eq_refl) as (Hwrites & Hcached & _).
      cbn zeta. rewrite Ht. exact (conj Hwrites Hcached).
  - destruct (cache_written_exactly_on_cold_start Scenario.warm_corpus
                Scenario.plain "docs/b.xml" "docs_cache" initial_state)
      as (added & Ht & Hwarm & _).
    + reflexivity.
    + reflexivity.
    + reflexivity.
    + split; [ reflexivity | ].
      split; [ intros validator doc Hv; discriminate Hv | ].
      split; [ | intros f recs Hf; discriminate Hf ].
      intros doc Hdoc. left. eexists. cbn. rewrite Hdoc. reflexivity.
    + destruct (Hwarm eq_refl) as (Hwrites & Hcached & _).
      cbn zeta. rewrite Ht. exact (conj Hwrites Hcached).
Defined.

(** ** Validation *)

(** Names the events before the verdict and after the store write. *)
Ltac around_the_verdict :=
  first [ exists [], []; reflexivity
        | eexists [_], _; reflexivity
        | eexists [_; _], _; reflexivity
        | eexists [_; _; _], _; reflexivity ].

(** C8: a non-skipped document that gets as far as validation and fails the
    validator is never extracted (no alarm, no reading of the records): the
    verdict is followed at once by the cancellation notice and by the write
    of the empty collection to the store of the unit, which holds it when
    the call is over. Without a validator every document is valid: none is
    asked, nothing is cancelled, and the document that gets as far is
    extracted under the alarm. *)
Theorem invalid_document_is_not_extracted :
  forall w self document_path st,
    mem (db_name_for_file self document_path) (st_paths st) = false ->
    from_file w document_path = Returns tt ->
    hydration_lets_through w self document_path ->
    let run := extract_paper w self document_path st in
    let db_name := db_name_for_file self document_path in
    (forall validator,
       is_valid_document self = Some validator ->
       (forall doc, doc_path doc = document_path -> validator doc = Returns false) ->
       exists added,
         st_trace (snd run) = st_trace st ++ added /\
         (forall p, ~ In (EvRecords p) added) /\
         (forall n, ~ In (EvAlarm n) added) /\
         (exists before after,
            added = before ++ [EvValidate document_path;
                               EvPrint (NCancelled document_path);
                               EvDbWrite db_name []] ++ after) /\
         store_content db_name (st_stores (snd run)) = Some []) /\
    (is_valid_document self = None ->
       (forall doc st0, should_process_document self doc st0 = (Ok true, st0)) /\
       exists added,
         st_trace (snd run) = st_trace st ++ added /\
         (forall p, ~ In (EvValidate p) added) /\
         (forall p, ~ In (EvPrint (NCancelled p)) added) /\
         exists before after,
           added = before ++ [EvAlarm 300; EvRecords document_path] ++ after).
Proof.
  intros w self document_path st Hgate Hfrom Hhydration run db_name.
  subst run db_name. unfold hydration_lets_through in Hhydration.
  rewrite (extract_paper_not_skipped w _ _ _ Hgate).
  split.
  - intros validator Hval Hrejects.
    unfold bind at 1 2.
    unfold_processor. rewrite Hval, Hfrom. cbn.
    destruct (cache_dir self) as [d|]; cbn;
      [ destruct (cacher self) as [c|]; cbn;
        [ destruct (hydrate_document w document_path) as [[]|e1] eqn:Hh; cbn;
          [ | rewrite (Hhydration c e1 eq_refl eq_refl); cbn ] | ] | ].
    all: rewrite Hrejects by (cbn; apply configure_document_path); cbn.
    all: answers.
    all: run_dispatch; eexists; (split; [ reflexivity | ]).
    all: split;
      [ unfold not; intros;
        repeat match goal with H : In _ _ |- _ => in_cases H; try contradiction end | ].
    all: split;
      [ unfold not; intros;
        repeat match goal with H : In _ _ |- _ => in_cases H; try contradiction end | ].
    all: split; [ around_the_verdict | ].
    all: cbn [store_content]; rewrite ?String.eqb_refl; try reflexivity.
    all: rewrite String.eqb_refl in *; discriminate.
  - intros Hnone.
    split.
    { intros doc st0. unfold should_process_document. rewrite Hnone. reflexivity. }
    unfold bind at 1 2.
    unfold_processor. rewrite Hnone, Hfrom. cbn.
    destruct (cache_dir self) as [d|]; cbn;
      [ destruct (cacher self) as [c|]; cbn;
        [ destruct (hydrate_document w document_path) as [[]|e1] eqn:Hh; cbn;
          [ | rewrite (Hhydration c e1 eq_refl eq_refl); cbn ] | ] | ].
    all: replies.
    all: run_dispatch; eexists; (split; [ reflexivity | ]).
    all: split;
      [ unfold not; intros;
        repeat match goal with H : In _ _ |- _ => in_cases H; try contradiction end | ].
    all: split;
      [ unfold not; intros;
        repeat match goal with H : In _ _ |- _ => in_cases H; try contradiction end | ].
    all: around_the_verdict.
Qed.

(** C8 at the second paper of the corpus: with a validator that turns every
    document down, and without a validator. *)
Lemma invalid_document_is_not_extracted_witness :
  (let run := extract_paper Scenario.corpus Scenario.picky "docs/b.xml"
                initial_state in
   exists added,
     st_trace (snd run) = added /\
     (forall p, ~ In (EvRecords p) added) /\
     (forall n, ~ In (EvAlarm n) added) /\
     (exists before after,
        added = before ++ [EvValidate "docs/b.xml";
                           EvPrint (NCancelled "docs/b.xml");
                           EvDbWrite "out/b" []] ++ after) /\
     store_content "out/b" (st_stores (snd run)) = Some []) /\
  (let run := extract_paper Scenario.corpus Scenario.plain "docs/b.xml"
                initial_state in
   exists added,
     st_trace (snd run) = added /\
     (forall p, ~ In (EvValidate p) added) /\
     (forall p, ~ In (EvPrint (NCancelled p)) added) /\
     exists before after,
       added = before ++ [EvAlarm 300; EvRecords "docs/b.xml"] ++ after).
Proof.
  split.
  - destruct (invalid_document_is_not_extracted Scenario.corpus Scenario.picky
                "docs/b.xml" initial_state) as [Hinvalid _].
    + reflexivity.
    + reflexivity.
    + intros c e _ He. injection He as <-. reflexivity.
    + apply (Hinvalid (fun _ => Returns false)).
      * reflexivity.
      * intros doc _. reflexivity.
  - destruct (invalid_document_is_not_extracted Scenario.corpus Scenario.plain
                "docs/b.xml" initial_state) as [_ Hvalid].
    + reflexivity.
    + reflexivity.
    + intros c e _ He. injection He as <-. reflexivity.
    + apply Hvalid. reflexivity.
Defined.
(** ** The dispatch block *)

(** C1 fails on a worker rank: the dispatch block resolves the distributed
    strategy without run-start setup; the output directory, which setup
    would create, is not created. *)
Example worker_rank_skips_setup :
  snd (dispatch_block (Scenario.ranked 1 3) initial_state)
  = with_trace [EvResolve "_extract_mpi"] initial_state
  /\ st_dirs (snd (will_start_extraction (Scenario.ranked 1 3) initial_state)) = ["out"].
Proof. split; reflexivity. Qed.

(** C1 as amended: the dispatch block runs run-start setup first exactly
    when MPI is off or the process is the primary; a worker rank goes
    straight to the strategy. When setup completes, or was not due, the
    block resolves the single-process strategy exactly when MPI is off or
    the world has one process, the distributed strategy otherwise. *)
Theorem dispatch_block_setup_then_strategy :
  forall self st,
    let primary_or_no_mpi :=
      match mpi self with Some c => rank c =? 0 | None => true end in
    let single :=
      match mpi self with Some c => size c =? 1 | None => true end in
    let strategy := if single then "_extract_single_threaded" else "_extract_mpi" in
    let resolve st1 := with_trace (st_trace st1 ++ [EvResolve strategy]) st1 in
    snd (dispatch_block self st)
    = if primary_or_no_mpi
      then match will_start_extraction self st with
           | (Ok _, st1) => resolve st1
           | (_, st1) => st1
           end
      else resolve st.
Proof.
  intros self st. cbv zeta.
  unfold dispatch_block, when, call_with_document_dir, bind, not_mpi_or, is_main_thread.
  destruct (mpi self) as [c|].
  - destruct (rank c =? 0).
    + destruct (will_start_extraction self st) as [[[]|e| |] st1];
        try destruct (size c =? 1); reflexivity.
    + destruct (size c =? 1); reflexivity.
  - destruct (will_start_extraction self st) as [[[]|e| |] st1]; reflexivity.
Qed.

(** ** Messages *)

Lemma take_first_split {A} (p : A -> bool) l1 x l2 :
  forallb (fun y => negb (p y)) l1 = true -> p x = true ->
  take_first p (l1 ++ x :: l2) = Some (x, l1 ++ l2).
Proof.
  induction l1 as [|a l1 IH]; cbn; intros Hl1 Hx.
  - rewrite Hx. reflexivity.
  - apply andb_prop in Hl1 as [Ha Hl1]. apply negb_true_iff in Ha.
    rewrite Ha, IH; auto.
Qed.

Lemma take_first_none {A} (p : A -> bool) l :
  forallb (fun y => negb (p y)) l = true -> take_first p l = None.
Proof.
  induction l as [|a l IH]; cbn; intros Hl; auto.
  apply andb_prop in Hl as [Ha Hl]. apply negb_true_iff in Ha.
  rewrite Ha, IH; auto.
Qed.

Lemma bind_ok {A B} (m : M A) (k : A -> M B) st a st1 :
  m st = (Ok a, st1) -> bind m k st = k a st1.
Proof. unfold bind. intros ->. reflexivity. Qed.

Lemma bind_raise {A B} (m : M A) (k : A -> M B) st e st1 :
  m st = (Raise e, st1) -> bind m k st = (Raise e, st1).
Proof. unfold bind. intros ->. reflexivity. Qed.

Lemma receive_split wanted st l1 x l2 :
  st_mail st = l1 ++ x :: l2 ->
  forallb (fun y => negb (wanted y)) l1 = true -> wanted x = true ->
  receive wanted st
  = (Ok x, with_trace (st_trace st ++ [EvRecv (env_dest x) (env_src x) (env_tag x)
                                              (env_payload x)])
             (with_mail (l1 ++ l2) st)).
Proof.
  intros Hmail Hl1 Hx. unfold receive.
  rewrite Hmail, take_first_split; auto.
Qed.

Lemma receive_blocks wanted st :
  forallb (fun y => negb (wanted y)) (st_mail st) = true ->
  receive wanted st = (Blocked, st).
Proof. intros H. unfold receive. rewrite take_first_none; auto. Qed.

Lemma comm_send_spec self c data dest tag st :
  mpi self = Some c ->
  comm_send self data dest tag st
  = (Ok tt,
     with_mail (st_mail st ++ [{| env_src := rank c; env_dest := dest;
                                  env_tag := tag; env_payload := data |}])
       (with_trace (st_trace st ++ [EvSend (rank c) dest tag data]) st)).
Proof. intros H. unfold comm_send, get_comm. rewrite H. reflexivity. Qed.

(** ** The worker *)

Section Worker.
Variable w : world.

(** A turn of the worker on an assignment: whatever [extract_paper]
    raises is printed and answered by an empty list. *)
Lemma worker_iteration_on_assignment self c p l1 l2 st :
  mpi self = Some c ->
  st_mail st = l1 ++ assignment_envelope (rank c) p :: l2 ->
  forallb (fun e => negb (wanted_by (rank c) e)) l1 = true ->
  let st1 := with_trace (st_trace st ++ [EvRecv (rank c) 0 AWAITING_DATA_TAG
                                                (assignment p)])
               (with_mail (l1 ++ l2) st) in
  exists e st2,
    extract_paper w self p st1 = (Raise e, st2) /\
    worker_iteration w self st
    = (Ok true,
       with_mail (st_mail st2 ++ [report_envelope (rank c)])
         (with_trace (st_trace st2 ++ [EvPrint (NExited p e);
                                       EvSend (rank c) 0 RETURNING_DATA_TAG PEmptyList])
            st2)).
Proof.
  intros Hmpi Hmail Hl1 st1.
  destruct (extract_paper_raises w self p st1) as (e & He).
  pose proof (footprint_ends _ _ st1 (extract_paper_footprint w self p)) as Hend.
  destruct (extract_paper w self p st1) as [o st2] eqn:Hrun. cbn in He; subst o.
  exists e, st2. split; [ reflexivity | ].
  unfold worker_iteration, comm_recv, get_comm. rewrite Hmpi.
  unfold bind at 1 2 3, ret at 1.
  rewrite (receive_split _ st l1 (assignment_envelope (rank c) p) l2); auto.
  2:{ unfold wanted_by. cbn. rewrite Nat.eqb_refl. reflexivity. }
  cbn [env_payload assignment_envelope assignment msg_exit msg_document_path
       env_dest env_src env_tag ret].
  fold (assignment p). fold st1.
  unfold bind at 1, try_except, bind at 1. rewrite Hrun.
  cbn [is_Exception]. unfold print, emit, bind at 1.
  rewrite (comm_send_spec _ c); auto.
  unfold ret, report_envelope. cbn. rewrite <- app_assoc. reflexivity.
Qed.

Lemma worker_iteration_on_exit self c l1 l2 st :
  mpi self = Some c ->
  st_mail st = l1 ++ exit_envelope (rank c) :: l2 ->
  forallb (fun e => negb (wanted_by (rank c) e)) l1 = true ->
  worker_iteration w self st
  = (Ok false,
     with_trace (st_trace st ++ [EvRecv (rank c) 0 AWAITING_DATA_TAG exit_signal])
       (with_mail (l1 ++ l2) st)).
Proof.
  intros Hmpi Hmail Hl1.
  unfold worker_iteration, comm_recv, get_comm. rewrite Hmpi.
  unfold bind, ret.
  rewrite (receive_split _ st l1 (exit_envelope (rank c)) l2); auto.
  unfold wanted_by. cbn. rewrite Nat.eqb_refl. reflexivity.
Qed.

Lemma worker_iteration_blocks self c st :
  mpi self = Some c ->
  forallb (fun e => negb (wanted_by (rank c) e)) (st_mail st) = true ->
  worker_iteration w self st = (Blocked, st).
Proof.
  intros Hmpi Hmail.
  unfold worker_iteration, comm_recv, get_comm. rewrite Hmpi.
  unfold bind, ret.
  rewrite receive_blocks; auto.
Qed.

Lemma report_not_wanted worker r :
  negb (wanted_by worker (report_envelope r)) = true.
Proof. unfold wanted_by. cbn. rewrite andb_false_r. reflexivity. Qed.

Lemma local_events_exited t :
  forallb local_event t = true -> exited_documents t = [].
Proof.
  unfold exited_documents.
  induction t as [|e t IH]; cbn; intros H; auto.
  apply andb_prop in H as [He Ht]. rewrite (IH Ht).
  destruct e as [[]| | | | | | | | | | | | | | |]; cbn in *; auto; discriminate.
Qed.

(** The loop of the worker over a queue of assignments closed by an exit
    message. *)
Lemma start_worker_until_exit self c :
  mpi self = Some c ->
  forall paths others st fuel,
    forallb (fun e => negb (wanted_by (rank c) e)) others = true ->
    st_mail st = map (assignment_envelope (rank c)) paths
                 ++ exit_envelope (rank c) :: others ->
    length paths < fuel ->
    exists st' added,
      _start_worker w fuel self st = (Ok tt, st') /\
      st_mail st' = others ++ map (fun _ => report_envelope (rank c)) paths /\
      st_trace st' = st_trace st ++ added /\
      exited_documents added = paths.
Proof.
  intros Hmpi paths. induction paths as [|p paths IH]; intros others st fuel Hothers Hmail Hfuel.
  - destruct fuel as [|fuel]; [ cbn in Hfuel; lia | ].
    cbn [_start_worker].
    rewrite (bind_ok _ _ _ _ _
               (worker_iteration_on_exit self c [] others st Hmpi Hmail eq_refl)).
    cbn. eexists _, _. split; [ reflexivity | ]. cbn.
    rewrite app_nil_r. auto.
  - destruct fuel as [|fuel]; [ cbn in Hfuel; lia | ].
    cbn [_start_worker].
    destruct (worker_iteration_on_assignment self c p [] (map (assignment_envelope (rank c)) paths ++ exit_envelope (rank c) :: others) st Hmpi Hmail eq_refl)
      as (e & st2 & Hrun & Hturn).
    rewrite (bind_ok _ _ _ _ _ Hturn).
    match type of Hrun with
    | extract_paper _ _ _ ?s = _ =>
        destruct (extract_paper_footprint w self p s) as (t & Ht & HP & Hm & _)
    end.
    rewrite Hrun in Ht, Hm. cbn in Ht, Hm.
    edestruct (IH (others ++ [report_envelope (rank c)])) as (st' & added & Hloop & Hmail' & Htrace' & Hexited).
    4:{ rewrite Hloop. eexists _, _. split; [ reflexivity | ].
        rewrite Hmail', Htrace'. cbn. rewrite Ht. split.
        - rewrite <- app_assoc. reflexivity.
        - split.
          + repeat rewrite <- app_assoc. cbn. reflexivity.
          + pose proof (local_events_exited t HP) as Hnone.
            unfold exited_documents in *. cbn [flat_map app].
            rewrite flat_map_app, Hnone. cbn. rewrite Hexited. reflexivity. }
    + rewrite forallb_app, Hothers. cbn. rewrite report_not_wanted. reflexivity.
    + cbn. rewrite Hm. rewrite <- app_assoc. reflexivity.
    + cbn in Hfuel. lia.
Qed.

(** Without an exit message the loop of the worker does not end. *)
Lemma start_worker_without_exit self c :
  mpi self = Some c ->
  forall fuel paths others st,
    forallb (fun e => negb (wanted_by (rank c) e)) others = true ->
    st_mail st = map (assignment_envelope (rank c)) paths ++ others ->
    ends (fst (_start_worker w fuel self st)) = false.
Proof.
  intros Hmpi fuel. induction fuel as [|fuel IH]; intros paths others st Hothers Hmail.
  - reflexivity.
  - cbn [_start_worker]. destruct paths as [|p paths].
    + unfold bind. rewrite (worker_iteration_blocks self c st Hmpi); [ reflexivity | ].
      rewrite Hmail. exact Hothers.
    + destruct (worker_iteration_on_assignment self c p [] (map (assignment_envelope (rank c)) paths ++ others) st Hmpi Hmail eq_refl)
        as (e & st2 & Hrun & Hturn).
      rewrite (bind_ok _ _ _ _ _ Hturn).
      match type of Hrun with
      | extract_paper _ _ _ ?s = _ =>
          destruct (extract_paper_footprint w self p s) as (t & Ht & HP & Hm & _)
      end.
      rewrite Hrun in Hm. cbn in Hm.
      apply (IH paths (others ++ [report_envelope (rank c)])).
      * rewrite forallb_app, Hothers. cbn. rewrite report_not_wanted. reflexivity.
      * cbn. rewrite Hm. rewrite <- app_assoc. reflexivity.
Qed.

End Worker.

(** C5: on an assignment the worker catches whatever [extract_paper]
    raises, prints it, reports an empty list to the primary and goes on
    with its loop; the loop goes through every assignment and returns when
    the exit message arrives, and does not end without one. *)
Theorem worker_survives_exceptions :
  forall w self c paths others st,
    mpi self = Some c ->
    forallb (fun e => negb (wanted_by (rank c) e)) others = true ->
    (forall p queue st0 e st2,
       st_mail st0 = assignment_envelope (rank c) p :: queue ->
       extract_paper w self p
         (with_trace (st_trace st0 ++ [EvRecv (rank c) 0 AWAITING_DATA_TAG
                                              (assignment p)])
            (with_mail queue st0))
       = (Raise e, st2) ->
       worker_iteration w self st0
       = (Ok true,
          with_mail (st_mail st2 ++ [report_envelope (rank c)])
            (with_trace (st_trace st2
                         ++ [EvPrint (NExited p e);
                             EvSend (rank c) 0 RETURNING_DATA_TAG PEmptyList])
               st2))) /\
    (st_mail st = map (assignment_envelope (rank c)) paths
                  ++ exit_envelope (rank c) :: others ->
     forall fuel, length paths < fuel ->
       exists st' added,
         _start_worker w fuel self st = (Ok tt, st') /\
         st_mail st' = others ++ map (fun _ => report_envelope (rank c)) paths /\
         st_trace st' = st_trace st ++ added /\
         exited_documents added = paths) /\
    (st_mail st = map (assignment_envelope (rank c)) paths ++ others ->
     forall fuel, ends (fst (_start_worker w fuel self st)) = false).
Proof.
  intros w self c paths others st Hmpi Hothers. split; [ | split ].
  - intros p queue st0 e st2 Hmail Hraise.
    destruct (worker_iteration_on_assignment w self c p [] queue st0 Hmpi Hmail eq_refl)
      as (e' & st2' & Hrun & Hturn).
    cbn [app] in Hrun. rewrite Hraise in Hrun.
    injection Hrun as <- <-. exact Hturn.
  - intros Hmail fuel Hfuel.
    exact (start_worker_until_exit w self c Hmpi paths others st fuel Hothers Hmail Hfuel).
  - intros Hmail fuel.
    exact (start_worker_without_exit w self c Hmpi fuel paths others st Hothers Hmail).
Qed.

(** C5 at a worker of rank 2 with two assignments and an exit message in
    its queue, the cache files unreadable. *)
Lemma worker_survives_exceptions_witness :
  mpi (Scenario.ranked 2 3) = Some {| rank := 2; size := 3 |} /\
  exists st' added,
    _start_worker Scenario.unreadable_cache 3 (Scenario.ranked 2 3)
      (with_mail [assignment_envelope 2 "docs/a.xml";
                  assignment_envelope 2 "docs/b.xml"; exit_envelope 2] initial_state)
    = (Ok tt, st') /\
    st_mail st' = [report_envelope 2; report_envelope 2] /\
    st_trace st' = added /\
    exited_documents added = ["docs/a.xml"; "docs/b.xml"].
Proof.
  split; [ reflexivity | ].
  destruct (worker_survives_exceptions Scenario.unreadable_cache
              (Scenario.ranked 2 3) {| rank := 2; size := 3 |}
              ["docs/a.xml"; "docs/b.xml"] []
              (with_mail [assignment_envelope 2 "docs/a.xml";
                          assignment_envelope 2 "docs/b.xml";
                          exit_envelope 2] initial_state))
    as (_ & Hloop & _); [ reflexivity | reflexivity | ].
  apply Hloop; [ reflexivity | simpl; lia ].
Defined.

(** ** The primary *)

Lemma skipn_cons_nth_error {A} (l : list A) i x :
  nth_error l i = Some x -> skipn i l = x :: skipn (S i) l.
Proof.
  revert i; induction l as [|a l IH]; intros [|i]; cbn; intros H; try discriminate.
  - congruence.
  - apply IH; auto.
Qed.

Lemma skipn_nil_nth_error {A} (l : list A) i :
  nth_error l i = None -> skipn i l = [].
Proof.
  intros H. apply nth_error_None in H. apply skipn_all2; auto.
Qed.

Lemma send_to_worker_spec self c i document_path st :
  mpi self = Some c -> rank c = 0 ->
  _send_to_worker self i document_path st
  = (Ok tt,
     with_mail (st_mail st ++ [assignment_envelope i document_path])
       (with_trace (st_trace st ++ [EvSend 0 i AWAITING_DATA_TAG (assignment document_path)])
          st)).
Proof.
  intros Hmpi Hrank. unfold _send_to_worker.
  rewrite (comm_send_spec _ c); auto. rewrite Hrank. reflexivity.
Qed.

Lemma exit_worker_spec self c i st :
  mpi self = Some c -> rank c = 0 ->
  _exit_worker self i st
  = (Ok tt,
     with_mail (st_mail st ++ [exit_envelope i])
       (with_trace (st_trace st ++ [exit_event i]) st)).
Proof.
  intros Hmpi Hrank. unfold _exit_worker.
  rewrite (comm_send_spec _ c); auto. rewrite Hrank. reflexivity.
Qed.

Lemma with_same st :
  with_mail (st_mail st ++ []) (with_trace (st_trace st ++ []) st) = st.
Proof. destruct st; cbn. rewrite !app_nil_r. reflexivity. Qed.

(** The fan-out from position [index]: the workers are served in order with
    the units from that position on, and the loop raises [IndexError] as
    soon as the units run out. *)
Lemma fan_out_spec self c document_dir filenames :
  mpi self = Some c -> rank c = 0 ->
  forall workers index st,
    fan_out self document_dir filenames workers index st
    = (if length workers <=? length (skipn index filenames)
       then Ok (index + length workers) else Raise IndexError,
       with_mail (st_mail st ++ fan_out_mail document_dir workers (skipn index filenames))
         (with_trace (st_trace st
                      ++ fan_out_events document_dir workers (skipn index filenames))
            st)).
Proof.
  intros Hmpi Hrank workers.
  induction workers as [|i workers IH]; intros index st.
  - cbn. rewrite Nat.add_0_r, with_same. reflexivity.
  - cbn [fan_out]. unfold list_index.
    destruct (nth_error filenames index) as [filename|] eqn:Hnth.
    + rewrite (skipn_cons_nth_error _ _ _ Hnth).
      unfold bind at 1, ret at 1.
      rewrite (bind_ok _ _ _ _ _ (send_to_worker_spec self c i _ st Hmpi Hrank)).
      rewrite IH. replace (index + 1) with (S index) by lia.
      cbn [length fan_out_mail fan_out_events Nat.leb].
      replace (S index + length workers) with (index + S (length workers)) by lia.
      f_equal. cbn. rewrite <- !app_assoc. reflexivity.
    + rewrite (skipn_nil_nth_error _ _ Hnth). cbn.
      rewrite with_same. reflexivity.
Qed.

Lemma length_seq_workers K : length (seq 1 K) = K.
Proof. apply length_seq. Qed.

(** C10: the first turn of the primary indexes the file names at 0 .. K-1
    for the workers 1 .. K whatever the cap: with at least K units they are
    assigned and the loop goes on; with fewer, the units there are are
    assigned and the primary ends in [IndexError]. *)
Theorem fan_out_needs_a_unit_per_worker :
  forall w self c document_dir names filenames num_papers fuel st,
    mpi self = Some c ->
    rank c = 0 ->
    listdir w document_dir = Returns names ->
    work_units names = Returns filenames ->
    let K := size c - 1 in
    let cap := match num_papers with
               | None => Z.of_nat (length filenames)
               | Some n => n
               end in
    let st1 := with_mail (st_mail st ++ fan_out_mail document_dir (seq 1 K) filenames)
                 (with_trace (st_trace st
                              ++ fan_out_events document_dir (seq 1 K) filenames) st) in
    fan_out self document_dir filenames (seq 1 K) 0 st
    = (if K <=? length filenames then Ok K else Raise IndexError, st1) /\
    (K <= length filenames ->
       primary_loop w (S fuel) self c document_dir filenames cap 0 0 st
       = primary_loop w fuel self c document_dir filenames cap K 0 st1) /\
    (length filenames < K ->
       _extract_mpi w (S fuel) self document_dir num_papers st
       = (Raise IndexError, st1)).
Proof.
  intros w self c document_dir names filenames num_papers fuel st
         Hmpi Hrank Hlist Hunits K cap st1.
  pose proof (fan_out_spec self c document_dir filenames Hmpi Hrank (seq 1 K) 0 st) as Hfan.
  rewrite length_seq_workers in Hfan. cbn [skipn Nat.add] in Hfan. fold st1 in Hfan.
  split; [ exact Hfan | split ].
  - intros HK. cbn [primary_loop Nat.eqb]. fold K.
    apply Nat.leb_le in HK. rewrite HK in Hfan.
    rewrite (bind_ok _ _ _ _ _ Hfan). reflexivity.
  - intros HK. unfold _extract_mpi. rewrite Hmpi.
    unfold is_main_thread. rewrite Hrank. cbn [Nat.eqb].
    rewrite Hlist. unfold bind at 1. cbn [lift ret].
    rewrite Hunits. unfold bind at 1. cbn [lift ret].
    fold cap. cbn [primary_loop Nat.eqb]. fold K.
    apply Nat.leb_gt in HK. rewrite HK in Hfan.
    unfold bind at 1. rewrite (bind_raise _ _ _ _ _ Hfan). reflexivity.
Qed.

(** C10 at two papers for three workers, the cap at 1. *)
Lemma fan_out_needs_a_unit_per_worker_witness :
  mpi (Scenario.ranked 0 4) = Some {| rank := 0; size := 4 |} /\
  _extract_mpi Scenario.two_papers 1 (Scenario.ranked 0 4) "docs" (Some 1%Z) initial_state
  = (Raise IndexError,
     with_mail [assignment_envelope 1 "docs/a.xml"; assignment_envelope 2 "docs/b.xml"]
       (with_trace [assign_event "docs" 1 "a.xml"; assign_event "docs" 2 "b.xml"]
          initial_state)).
Proof.
  split; [ reflexivity | ].
  destruct (fan_out_needs_a_unit_per_worker Scenario.two_papers
              (Scenario.ranked 0 4) {| rank := 0; size := 4 |} "docs"
              ["a.xml"; "b.xml"] ["a.xml"; "b.xml"] (Some 1%Z) 0 initial_state)
    as (_ & _ & Hfew); [ reflexivity | reflexivity | reflexivity | reflexivity | ].
  apply Hfew. simpl. lia.
Defined.

(** *** Receiving a report *)

Lemma local_not_primary t :
  forallb local_event t = true -> primary_view t = [].
Proof.
  unfold primary_view. induction t as [|e t IH]; cbn; intros H; auto.
  apply andb_prop in H as [He Ht]. rewrite (IH Ht).
  destruct e as [| | | | | | | | | | | | |[]|[]|]; cbn in *; auto; discriminate.
Qed.

Lemma primary_view_app t1 t2 :
  primary_view (t1 ++ t2) = primary_view t1 ++ primary_view t2.
Proof. apply filter_app. Qed.

Lemma in_flight_busy K st :
  in_flight K (st_mail st) -> busy_workers st = map env_dest (st_mail st).
Proof.
  unfold busy_workers. intros [Hall _].
  induction (st_mail st) as [|e l IH]; cbn; auto.
  inversion Hall as [|? ? (p & Hdest & He) Hl]; subst.
  rewrite He at 1 2 3. cbn.
  destruct (env_dest e) as [|n] eqn:Hd; [ lia | ]. cbn.
  rewrite IH; auto. congruence.
Qed.

Lemma in_flight_not_for_primary K mail :
  in_flight K mail -> forallb (fun e => negb (env_dest e =? 0)) mail = true.
Proof.
  intros [Hall _]. induction Hall as [|e l (p & Hdest & _) Hl IH]; cbn; auto.
  rewrite IH. destruct (env_dest e); [ lia | reflexivity ].
Qed.

Lemma in_flight_remove K l1 e l2 :
  in_flight K (l1 ++ e :: l2) ->
  in_flight K (l1 ++ l2) /\ ~ In (env_dest e) (map env_dest (l1 ++ l2)) /\
  forallb (fun y => negb (wanted_by (env_dest e) y)) l1 = true.
Proof.
  intros [Hall Hnodup]. rewrite map_app in Hnodup. cbn in Hnodup.
  split; [ split | split ].
  - apply Forall_app in Hall as [H1 H2]. inversion H2; subst.
    apply Forall_app; auto.
  - rewrite map_app. eapply NoDup_remove_1; eauto.
  - rewrite map_app. eapply NoDup_remove_2; eauto.
  - apply NoDup_remove_2 in Hnodup.
    apply forallb_forall. intros y Hy. unfold wanted_by.
    destruct (Nat.eqb_spec (env_dest y) (env_dest e)) as [Heq|]; [ | reflexivity ].
    exfalso. apply Hnodup. apply in_or_app. left.
    rewrite <- Heq. apply in_map; auto.
Qed.

Lemma in_flight_add K mail r p :
  in_flight K mail -> 1 <= r <= K -> ~ In r (map env_dest mail) ->
  in_flight K (mail ++ [assignment_envelope r p]).
Proof.
  intros [Hall Hnodup] Hr Hnew. split.
  - apply Forall_app; split; auto. constructor; [ | constructor ].
    exists p. cbn. auto.
  - rewrite map_app. cbn. apply NoDup_app; auto.
    + constructor; [ intros [] | constructor ].
    + intros x Hx [Hx'|[]]. subst. auto.
Qed.

Section Primary.
Variable w : world.

(** A receive of the primary while assignments are in flight: the worker
    picked by the schedule takes its turn and its report arrives. *)
Lemma comm_recv_any_spec self c K st :
  mpi self = Some c -> rank c = 0 ->
  in_flight K (st_mail st) -> st_mail st <> [] ->
  exists r st' t,
    comm_recv_any w self st = (Ok r, st') /\
    1 <= r <= K /\
    in_flight K (st_mail st') /\
    ~ In r (map env_dest (st_mail st')) /\
    S (length (st_mail st')) = length (st_mail st) /\
    st_trace st' = st_trace st ++ t /\
    primary_view t = [report_event r].
Proof.
  intros Hmpi Hrank Hfl Hne.
  unfold comm_recv_any, get_comm. rewrite Hmpi. unfold bind at 1, ret at 1.
  unfold let_a_worker_run, bind at 1.
  rewrite (in_flight_busy K st Hfl).
  destruct (st_mail st) as [|e0 mail0] eqn:Hmail; [ congruence | ]. clear Hne.
  cbn [map].
  set (busy := env_dest e0 :: map env_dest mail0).
  set (worker := nth (hd 0 (st_sched st) mod length busy) busy (env_dest e0)).
  assert (Hin : In worker (map env_dest (e0 :: mail0))).
  { apply nth_In. apply Nat.mod_upper_bound. discriminate. }
  clearbody worker. clear busy.
  apply in_map_iff in Hin as (env & Hdest & Hin).
  apply in_split in Hin as (l1 & l2 & Hsplit).
  rewrite Hsplit in Hfl.
  destruct (in_flight_remove K l1 _ l2 Hfl) as (Hfl' & Hfresh & Hl1).
  destruct Hfl as [Hall _].
  apply Forall_app in Hall as [_ Hall].
  apply Forall_inv in Hall as (p & Hbound & He).
  rewrite Hdest in *. subst env.
  set (st1 := with_sched (tl (st_sched st)) st).
  assert (Hmail1 : st_mail st1 = l1 ++ assignment_envelope worker p :: l2).
  { cbn. rewrite Hmail. exact Hsplit. }
  assert (Hmpi' : mpi (as_rank worker self) = Some {| rank := worker; size := size c |}).
  { cbn. rewrite Hmpi. reflexivity. }
  destruct (worker_iteration_on_assignment w (as_rank worker self) _ p l1 l2 st1
              Hmpi' Hmail1 Hl1) as (e & st2 & Hrun & Hturn).
  cbn [rank] in Hrun, Hturn.
  match type of Hrun with
  | extract_paper _ _ _ ?s = _ =>
      destruct (extract_paper_footprint w (as_rank worker self) p s)
        as (t & Ht & HP & Hm & _)
  end.
  rewrite Hrun in Ht, Hm. cbn in Ht, Hm.
  rewrite Hturn. cbn [snd].
  unfold bind at 1.
  erewrite (receive_split _ _ (l1 ++ l2) (report_envelope worker) []).
  - exists worker. eexists. eexists. split; [ reflexivity | ].
    cbn. rewrite app_nil_r.
    split; [ exact Hbound | ]. split; [ exact Hfl' | ]. split; [ exact Hfresh | ].
    split.
    { apply (f_equal (@length _)) in Hsplit.
      rewrite !length_app in *. cbn in *. lia. }
    split.
    { rewrite Ht. repeat rewrite <- app_assoc. reflexivity. }
    cbn [app]. unfold primary_view. cbn [filter primary_event].
    destruct worker as [|n]; [ lia | ].
    rewrite filter_app. fold (primary_view t). rewrite (local_not_primary t HP).
    reflexivity.
  - cbn. rewrite Hm. reflexivity.
  - rewrite Hrank. apply (in_flight_not_for_primary K). exact Hfl'.
  - rewrite Hrank. reflexivity.
Qed.

End Primary.

(** *** The rounds of the primary *)

Section Rounds.
Variable w : world.

Lemma wandb_log_when self n st :
  exists t,
    when (use_wandb self) (wandb_log n) st
    = (Ok tt, with_trace (st_trace st ++ t) st) /\ primary_view t = [].
Proof.
  unfold when, wandb_log, emit. destruct (use_wandb self).
  - exists [EvWandbLog n]. split; reflexivity.
  - exists []. split; [ | reflexivity ].
    unfold ret. rewrite <- (with_same st) at 1.
    destruct st; cbn. rewrite !app_nil_r. reflexivity.
Qed.

(** From the second turn on, with every unit to be assigned: the primary
    receives a report per unit not yet reported, answers each with the next
    pending unit while there is one, and leaves the loop when nothing is
    in flight. *)
Lemma primary_loop_rounds self c K document_dir filenames :
  mpi self = Some c -> rank c = 0 ->
  forall n index n_finished st fuel,
    n = length filenames - n_finished ->
    n_finished < index -> index <= length filenames ->
    in_flight K (st_mail st) ->
    length (st_mail st) = index - n_finished ->
    n <= fuel ->
    exists st' reporters t,
      primary_loop w fuel self c document_dir filenames
        (Z.of_nat (length filenames)) index n_finished st = (Ok tt, st') /\
      length reporters = n /\
      Forall (fun r => 1 <= r <= K) reporters /\
      st_trace st' = st_trace st ++ t /\
      primary_view t = rounds document_dir (skipn index filenames) reporters /\
      st_mail st' = [].
Proof.
  intros Hmpi Hrank n.
  induction n as [|n IH]; intros index n_finished st fuel Hn Hlt Hle Hfl Hlen Hfuel;
    [ lia | ].
  destruct fuel as [|fuel]; [ lia | ].
  cbn [primary_loop].
  destruct index as [|index']; [ lia | ]. cbn [Nat.eqb].
  remember (S index') as index eqn:Hindex.
  assert (Hne : st_mail st <> []).
  { intros H. rewrite H in Hlen. cbn in Hlen. lia. }
  destruct (comm_recv_any_spec w self c K st Hmpi Hrank Hfl Hne)
    as (r & st1 & t1 & Hrecv & Hr & Hfl1 & Hfresh & Hlen1 & Ht1 & Hview1).
  rewrite (bind_ok _ _ _ _ _ Hrecv).
  destruct (wandb_log_when self (n_finished + 1) st1) as (tw & Hlog & Hvieww).
  rewrite (bind_ok _ _ _ _ _ Hlog).
  set (st2 := with_trace (st_trace st1 ++ tw) st1).
  destruct (Nat.eq_dec index (length filenames)) as [Hall|Hmore].
  - (* every unit is assigned *)
    replace ((Z.of_nat (length filenames) <=? Z.of_nat index)%Z) with true
      by (symmetry; apply Z.leb_le; lia).
    replace ((Z.of_nat index <? Z.of_nat (length filenames))%Z) with false
      by (symmetry; apply Z.ltb_ge; lia).
    rewrite andb_true_r.
    destruct (Nat.eqb_spec (n_finished + 1) index) as [Hlast|Hnot].
    + exists st2, [r], (t1 ++ tw). unfold ret. split; [ reflexivity | ].
      split; [ cbn; lia | ]. split; [ constructor; auto | ].
      split; [ cbn; rewrite Ht1, app_assoc; reflexivity | ].
      split; [ rewrite primary_view_app, Hview1, Hvieww;
               rewrite (skipn_all2 filenames) by lia; reflexivity | ].
      cbn. destruct (st_mail st1); [ reflexivity | cbn in Hlen1; lia ].
    + destruct (IH index (n_finished + 1) st2 fuel) as (st' & rs & t & Hloop & Hrs & Hbound & Ht & Hview & Hmail);
        try lia; auto.
      { cbn. lia. }
      exists st', (r :: rs), (t1 ++ tw ++ t). split; [ exact Hloop | ].
      split; [ cbn; lia | ]. split; [ constructor; auto | ].
      split; [ rewrite Ht; cbn; rewrite Ht1, <- !app_assoc; reflexivity | ].
      split; [ | exact Hmail ].
      rewrite !primary_view_app, Hview1, Hvieww, Hview.
      rewrite (skipn_all2 filenames) by lia. reflexivity.
  - (* units are pending *)
    assert (Hlt' : index < length filenames) by lia.
    replace ((Z.of_nat (length filenames) <=? Z.of_nat index)%Z) with false
      by (symmetry; apply Z.leb_gt; lia).
    replace ((Z.of_nat index <? Z.of_nat (length filenames))%Z) with true
      by (symmetry; apply Z.ltb_lt; lia).
    rewrite andb_false_r.
    destruct (nth_error filenames index) as [filename|] eqn:Hnth;
      [ | apply nth_error_None in Hnth; lia ].
    unfold print, emit, bind at 1. unfold list_index. rewrite Hnth.
    unfold bind at 1, ret at 1.
    match goal with
    | |- context [bind (_send_to_worker self r ?path) ?k ?s] =>
        rewrite (bind_ok _ k _ _ _ (send_to_worker_spec self c r path s Hmpi Hrank));
        set (st3 := with_mail (st_mail s ++ [assignment_envelope r path])
                      (with_trace (st_trace s ++ [EvSend 0 r AWAITING_DATA_TAG
                                                        (assignment path)]) s))
    end.
    destruct (IH (index + 1) (n_finished + 1) st3 fuel)
      as (st' & rs & t & Hloop & Hrs & Hbound & Ht & Hview & Hmail); try lia.
    { cbn. apply in_flight_add; auto. }
    { cbn. rewrite length_app. cbn. lia. }
    exists st', (r :: rs),
      (t1 ++ tw ++ [EvPrint (NProgress index (Z.of_nat (length filenames)));
                    assign_event document_dir r filename] ++ t).
    split; [ exact Hloop | ].
    split; [ cbn; lia | ]. split; [ constructor; auto | ].
    split; [ rewrite Ht; cbn; rewrite Ht1, <- !app_assoc; reflexivity | ].
    split; [ | exact Hmail ].
    rewrite !primary_view_app, Hview1, Hvieww, Hview.
    rewrite (skipn_cons_nth_error _ _ _ Hnth).
    replace (index + 1) with (S index) by lia. reflexivity.
Qed.

End Rounds.

(** *** The whole run of the primary *)

Lemma exit_workers_spec self c :
  mpi self = Some c -> rank c = 0 ->
  forall workers st,
    for_each (_exit_worker self) workers st
    = (Ok tt,
       with_mail (st_mail st ++ map exit_envelope workers)
         (with_trace (st_trace st ++ map exit_event workers) st)).
Proof.
  intros Hmpi Hrank workers. induction workers as [|i workers IH]; intros st.
  - cbn. unfold ret. rewrite with_same. reflexivity.
  - cbn [for_each map].
    rewrite (bind_ok _ _ _ _ _ (exit_worker_spec self c i st Hmpi Hrank)).
    rewrite IH. cbn. rewrite <- !app_assoc. reflexivity.
Qed.

Lemma fan_out_mail_dests document_dir workers filenames :
  length workers <= length filenames ->
  map env_dest (fan_out_mail document_dir workers filenames) = workers.
Proof.
  revert filenames. induction workers as [|i workers IH]; intros [|f fs] H;
    cbn in *; auto; try lia.
  rewrite IH; auto. lia.
Qed.

Lemma fan_out_mail_in_flight K document_dir workers filenames :
  length workers <= length filenames ->
  NoDup workers -> Forall (fun i => 1 <= i <= K) workers ->
  in_flight K (fan_out_mail document_dir workers filenames).
Proof.
  intros Hlen Hnodup Hall. split.
  - clear Hnodup. revert filenames Hlen.
    induction Hall as [|i workers Hi Hall IH]; intros [|f fs] H; cbn in *;
      try constructor; try lia.
    + exists (PosixPath.join document_dir f). cbn. auto.
    + apply IH. lia.
  - rewrite fan_out_mail_dests; auto.
Qed.

Lemma seq_workers_bounds K : Forall (fun i => 1 <= i <= K) (seq 1 K).
Proof. apply Forall_forall. intros i Hi. apply in_seq in Hi. lia. Qed.

Lemma fan_out_events_view document_dir workers filenames :
  primary_view (fan_out_events document_dir workers filenames)
  = fan_out_events document_dir workers filenames.
Proof.
  revert filenames. induction workers as [|i workers IH]; intros [|f fs]; cbn; auto.
  unfold primary_view in IH. rewrite IH. reflexivity.
Qed.

Lemma exit_events_view workers :
  primary_view (map exit_event workers) = map exit_event workers.
Proof.
  induction workers as [|i workers IH]; cbn; auto.
  unfold primary_view in IH. rewrite IH. reflexivity.
Qed.

Lemma combine_fst {A B} (l : list A) (l' : list B) :
  length l = length l' -> map fst (combine l l') = l.
Proof.
  revert l'. induction l as [|a l IH]; intros [|b l'] H; cbn in *; auto; try lia.
  rewrite IH; auto.
Qed.

Lemma combine_snd {A B} (l : list A) (l' : list B) :
  length l = length l' -> map snd (combine l l') = l'.
Proof.
  revert l'. induction l as [|a l IH]; intros [|b l'] H; cbn in *; auto; try lia.
  rewrite IH; auto.
Qed.

Lemma assignments_fan_out document_dir workers filenames :
  length workers <= length filenames ->
  assignments (fan_out_events document_dir workers filenames)
  = combine workers (map (PosixPath.join document_dir) (firstn (length workers) filenames)).
Proof.
  revert filenames. induction workers as [|i workers IH]; intros [|f fs] H;
    cbn in *; auto; try lia.
  unfold assignments in IH. rewrite IH; auto. lia.
Qed.

Lemma assignments_rounds document_dir pending reporters :
  length pending <= length reporters ->
  map snd (assignments (rounds document_dir pending reporters))
  = map (PosixPath.join document_dir) pending.
Proof.
  revert pending. induction reporters as [|r reporters IH]; intros [|f fs] H;
    cbn in *; auto; try lia.
  - apply (IH []). cbn. lia.
  - unfold assignments in IH. rewrite IH; auto. lia.
Qed.

Lemma assignments_exits workers : assignments (map exit_event workers) = [].
Proof. induction workers; cbn; auto. Qed.

Lemma reports_app t1 t2 : reports (t1 ++ t2) = reports t1 + reports t2.
Proof. unfold reports. rewrite filter_app, length_app. reflexivity. Qed.

Lemma reports_fan_out document_dir workers filenames :
  reports (fan_out_events document_dir workers filenames) = 0.
Proof.
  revert filenames. induction workers as [|i workers IH]; intros [|f fs]; cbn; auto.
  apply IH.
Qed.

Lemma reports_rounds document_dir pending reporters :
  reports (rounds document_dir pending reporters) = length reporters.
Proof.
  revert pending. induction reporters as [|r reporters IH]; intros [|f fs];
    cbn; auto; f_equal; apply IH.
Qed.

Lemma reports_exits workers : reports (map exit_event workers) = 0.
Proof. induction workers; cbn; auto. Qed.

(** C4: with K workers, more units than workers and the cap at the number
    of units, the primary, whatever the schedule, assigns the first K units
    to the workers 1 .. K, then answers each report with the next pending
    unit, sent to the worker that reported; every unit is assigned once,
    every worker at least once; after exactly as many reports as units it
    sends the exit message to the workers 1 .. K and returns. *)
Theorem primary_assigns_every_unit_once :
  forall w self K document_dir names filenames num_papers st fuel,
    mpi self = Some {| rank := 0; size := S K |} ->
    listdir w document_dir = Returns names ->
    work_units names = Returns filenames ->
    1 <= K ->
    K < length filenames ->
    num_papers = None \/ num_papers = Some (Z.of_nat (length filenames)) ->
    st_mail st = [] ->
    length filenames < fuel ->
    exists st' reporters added,
      _extract_mpi w fuel self document_dir num_papers st = (Ok tt, st') /\
      st_trace st' = st_trace st ++ added /\
      length reporters = length filenames /\
      Forall (fun r => 1 <= r <= K) reporters /\
      primary_view added
      = fan_out_events document_dir (seq 1 K) filenames
        ++ rounds document_dir (skipn K filenames) reporters
        ++ map exit_event (seq 1 K) /\
      map snd (assignments (primary_view added))
      = map (PosixPath.join document_dir) filenames /\
      (forall i, 1 <= i <= K -> In i (map fst (assignments (primary_view added)))) /\
      reports (primary_view added) = length filenames /\
      st_mail st' = map exit_envelope (seq 1 K).
Proof.
  intros w self K document_dir names filenames num_papers st fuel
         Hmpi Hlist Hunits HK HKW Hcap Hmail Hfuel.
  set (c := {| rank := 0; size := S K |}) in *.
  assert (Hrank : rank c = 0) by reflexivity.
  destruct fuel as [|fuel]; [ lia | ].
  unfold _extract_mpi. rewrite Hmpi. cbn [is_main_thread rank c Nat.eqb].
  rewrite Hlist. unfold bind at 1. cbn [lift ret].
  rewrite Hunits. unfold bind at 1. cbn [lift ret].
  replace (match num_papers with
           | Some n => n
           | None => Z.of_nat (length filenames)
           end) with (Z.of_nat (length filenames))
    by (destruct Hcap; subst; reflexivity).
  cbn [primary_loop Nat.eqb]. replace (size c - 1) with K by (cbn; lia).
  pose proof (fan_out_spec self c document_dir filenames Hmpi Hrank (seq 1 K) 0 st) as Hfan.
  rewrite length_seq_workers in Hfan. cbn [skipn Nat.add] in Hfan.
  replace (K <=? length filenames) with true in Hfan
    by (symmetry; apply Nat.leb_le; lia).
  rewrite Hmail in Hfan. cbn [app] in Hfan.
  unfold bind at 1. unfold bind at 1. rewrite Hfan.
  match type of Hfan with _ = (_, ?s) => set (st1 := s) in * end.
  destruct (primary_loop_rounds w self c K document_dir filenames Hmpi Hrank
              (length filenames) K 0 st1 fuel)
    as (st2 & reporters & t & Hloop & Hlen & Hbound & Ht & Hview & Hmail2); try lia.
  { cbn. apply fan_out_mail_in_flight.
    - rewrite length_seq_workers. lia.
    - apply seq_NoDup.
    - apply seq_workers_bounds. }
  { cbn. rewrite <- (length_map env_dest), fan_out_mail_dests, length_seq_workers;
      [ lia | rewrite length_seq_workers; lia ]. }
  rewrite Hloop.
  rewrite (bind_ok _ _ _ _ _ (exit_workers_spec self c Hmpi Hrank (seq 1 K) st2)).
  unfold print, emit.
  exists (with_trace ((st_trace st2 ++ map exit_event (seq 1 K)) ++ [EvPrint NWholeTook])
            (with_mail (st_mail st2 ++ map exit_envelope (seq 1 K))
               (with_trace (st_trace st2 ++ map exit_event (seq 1 K)) st2))),
    reporters,
    (fan_out_events document_dir (seq 1 K) filenames ++ t
     ++ map exit_event (seq 1 K) ++ [EvPrint NWholeTook]).
  assert (Hviewall :
    primary_view (fan_out_events document_dir (seq 1 K) filenames ++ t
                  ++ map exit_event (seq 1 K) ++ [EvPrint NWholeTook])
    = fan_out_events document_dir (seq 1 K) filenames
      ++ rounds document_dir (skipn K filenames) reporters
      ++ map exit_event (seq 1 K)).
  { rewrite !primary_view_app, fan_out_events_view, exit_events_view, Hview.
    cbn. rewrite app_nil_r. reflexivity. }
  split; [ reflexivity | ].
  split; [ cbn; rewrite Ht; cbn; rewrite <- !app_assoc; reflexivity | ].
  split; [ lia | ]. split; [ exact Hbound | ].
  split; [ exact Hviewall | ].
  rewrite Hviewall. unfold assignments. rewrite !flat_map_app.
  fold (assignments (fan_out_events document_dir (seq 1 K) filenames)).
  fold (assignments (rounds document_dir (skipn K filenames) reporters)).
  fold (assignments (map exit_event (seq 1 K))).
  rewrite assignments_exits, app_nil_r.
  rewrite assignments_fan_out by (rewrite length_seq_workers; lia).
  rewrite length_seq_workers.
  split; [ | split; [ | split ] ].
  - rewrite map_app, assignments_rounds by (rewrite length_skipn; lia).
    rewrite combine_snd by (rewrite length_map, length_firstn, length_seq_workers; lia).
    rewrite <- map_app, firstn_skipn. reflexivity.
  - intros i Hi. rewrite map_app. apply in_or_app. left.
    rewrite combine_fst by (rewrite length_map, length_firstn, length_seq_workers; lia).
    apply in_seq. lia.
  - rewrite !reports_app, reports_fan_out, reports_rounds, reports_exits. lia.
  - cbn. rewrite Hmail2. reflexivity.
Qed.

(** C4 at five papers for two workers, the reports arriving in the order
    the schedule 1, 0, 1, 1, 0 picks. *)
Lemma primary_assigns_every_unit_once_witness :
  mpi (Scenario.ranked 0 3) = Some {| rank := 0; size := 3 |} /\
  exists st' reporters added,
    _extract_mpi Scenario.corpus 6 (Scenario.ranked 0 3) "docs" None
      (with_sched [1; 0; 1; 1; 0] initial_state) = (Ok tt, st') /\
    st_trace st' = added /\
    length reporters = 5 /\
    Forall (fun r => 1 <= r <= 2) reporters /\
    primary_view added
    = fan_out_events "docs" [1; 2] ["a.xml"; "b.xml"; "c.xml"; "d.xml"; "e.xml"]
      ++ rounds "docs" ["c.xml"; "d.xml"; "e.xml"] reporters
      ++ [exit_event 1; exit_event 2] /\
    map snd (assignments (primary_view added))
    = ["docs/a.xml"; "docs/b.xml"; "docs/c.xml"; "docs/d.xml"; "docs/e.xml"] /\
    (forall i, 1 <= i <= 2 -> In i (map fst (assignments (primary_view added)))) /\
    reports (primary_view added) = 5 /\
    st_mail st' = [exit_envelope 1; exit_envelope 2].
Proof.
  split; [ reflexivity | ].
  apply (primary_assigns_every_unit_once Scenario.corpus (Scenario.ranked 0 3) 2 "docs"
           ["a.xml"; "b.xml"; "c.xml"; "d.xml"; "e.xml"]
           ["a.xml"; "b.xml"; "c.xml"; "d.xml"; "e.xml"] None
           (with_sched [1; 0; 1; 1; 0] initial_state) 6);
    try reflexivity; simpl; try lia.
  left; reflexivity.
Defined.

(** * Further properties of the code *)
(** ** Enumeration of the work units *)

Lemma prefix_iff (p s : string) :
  prefix p s = true <-> exists r, s = (p ++ r)%string.
Proof.
  revert s. induction p as [|a p IH]; intros s; cbn.
  - split; [ intros _; exists s; reflexivity | intros _; destruct s; reflexivity ].
  - destruct s as [|b s]; cbn.
    + split; [ discriminate | intros (r & H); discriminate ].
    + destruct (Ascii.ascii_dec a b) as [->|Hne].
      * rewrite IH. split; intros (r & H); exists r; congruence.
      * split; [ discriminate | intros (r & H); congruence ].
Qed.

(** [needle in hay] holds exactly when [hay] is some text, [needle], some
    text. *)
Lemma str_contains_iff (needle hay : string) :
  str_contains needle hay = true
  <-> exists a b, hay = (a ++ needle ++ b)%string.
Proof.
  induction hay as [|c hay IH].
  - cbn [str_contains]. destruct (prefix needle "") eqn:Hp.
    + apply prefix_iff in Hp as (r & Hr).
      split; [ intros _; exists "", r; exact Hr | reflexivity ].
    + split; [ discriminate | ]. intros (a & b & H).
      destruct a as [|c' a]; cbn in H; [ | discriminate ].
      assert (prefix needle "" = true) by (apply prefix_iff; eauto). congruence.
  - cbn [str_contains]. destruct (prefix needle (String c hay)) eqn:Hp.
    + apply prefix_iff in Hp as (r & Hr).
      split; [ intros _; exists "", r; exact Hr | reflexivity ].
    + rewrite IH. split.
      * intros (a & b & H). exists (String c a), b. cbn. congruence.
      * intros (a & b & H). destruct a as [|c' a]; cbn in H.
        -- assert (prefix needle (String c hay) = true) by (apply prefix_iff; eauto).
           congruence.
        -- exists a, b. congruence.
Qed.

Lemma keep_filename_nonempty filename :
  filename <> "" -> keep_filename filename = Returns (is_work_unit filename).
Proof. destruct filename; [ congruence | reflexivity ]. Qed.

Lemma starts_with_dot_iff filename :
  starts_with_dot filename = true <-> exists r, filename = ("." ++ r)%string.
Proof.
  destruct filename as [|c r]; cbn.
  - split; [ discriminate | intros (r & H); discriminate ].
  - destruct (Ascii.eqb_spec c "."%char) as [->|Hne].
    + split; eauto.
    + split; [ discriminate | intros (r' & H); congruence ].
Qed.

(** X1: the enumeration keeps, in the order of the listing, exactly the
    names that do not begin with a dot and do not contain [records.txt];
    an empty name makes the list comprehension raise [IndexError]. *)
Theorem work_units_keeps_visible_documents :
  forall names,
    ((forall n, In n names -> n <> "") ->
     work_units names = Returns (filter is_work_unit names) /\
     forall f, In f (filter is_work_unit names)
               <-> In f names
                   /\ (forall r, f <> ("." ++ r)%string)
                   /\ (forall a b, f <> (a ++ "records.txt" ++ b)%string)) /\
    (In "" names -> work_units names = Raises IndexError).
Proof.
  intros names. split.
  - intros Hne. split.
    + induction names as [|n names IH]; [ reflexivity | ].
      cbn [work_units filter]. rewrite keep_filename_nonempty by (apply Hne; left; auto).
      rewrite IH by (intros m Hm; apply Hne; right; auto). reflexivity.
    + intros f. rewrite filter_In. unfold is_work_unit.
      rewrite andb_true_iff, !negb_true_iff.
      split; intros (Hin & Hkeep); (split; [ exact Hin | ]).
      * destruct Hkeep as [Hdot Hrec]. split.
        -- intros r ->. cbn in Hdot. discriminate.
        -- intros a b ->.
           assert (str_contains "records.txt" (a ++ "records.txt" ++ b) = true)
             by (apply str_contains_iff; eauto).
           congruence.
      * destruct Hkeep as [Hdot Hrec]. split.
        -- destruct (starts_with_dot f) eqn:Hd; auto.
           apply starts_with_dot_iff in Hd as (r & ->). exfalso. eapply Hdot; eauto.
        -- destruct (str_contains "records.txt" f) eqn:Hc; auto.
           apply str_contains_iff in Hc as (a & b & ->). exfalso. eapply Hrec; eauto.
  - induction names as [|n names IH]; intros Hin; [ destruct Hin | ].
    cbn [work_units]. destruct n as [|c n]; [ reflexivity | ].
    destruct Hin as [Hin|Hin]; [ discriminate | ].
    rewrite (IH Hin). reflexivity.
Qed.

(** X1 at a directory with a hidden file and a records file, and at one
    with an empty name. *)
Lemma work_units_keeps_visible_documents_witness :
  work_units ["a.xml"; ".hidden.xml"; "a_records.txt"; "b.xml"]
  = Returns ["a.xml"; "b.xml"] /\
  work_units ["a.xml"; ""] = Raises IndexError.
Proof.
  split.
  - apply (work_units_keeps_visible_documents
             ["a.xml"; ".hidden.xml"; "a_records.txt"; "b.xml"]).
    intros n Hn. cbn [In] in Hn.
    destruct Hn as [<-|[<-|[<-|[<-|[]]]]]; discriminate.
  - apply (work_units_keeps_visible_documents ["a.xml"; ""]).
    cbn [In]. auto.
Defined.

(** ** Run-start setup *)

Lemma with_trace_nil st : with_trace (st_trace st ++ []) st = st.
Proof. destruct st; cbn. rewrite app_nil_r. reflexivity. Qed.

Lemma for_each_saves files st :
  for_each (fun file => emit (EvWandbSave file)) files st
  = (Ok tt, with_trace (st_trace st ++ map EvWandbSave files) st).
Proof.
  revert st. induction files as [|file files IH]; intros st.
  - cbn. unfold ret. rewrite with_trace_nil. reflexivity.
  - cbn [for_each map]. unfold bind, emit. rewrite IH. cbn.
    rewrite <- app_assoc. reflexivity.
Qed.

Lemma mem_head s l : mem s (s :: l) = true.
Proof. unfold mem. cbn. rewrite String.eqb_refl. reflexivity. Qed.

(** The part of setup that concerns wandb. *)
Lemma wandb_setup_spec self st :
  when (use_wandb self)
    (run <- gets st_wandb_run ;;
     (if run then print NExistingRun else create_wandb_run self) ;;
     for_each (fun file => emit (EvWandbSave file)) (wandb_save_files self)) st
  = (Ok tt,
     with_wandb_run (use_wandb self || st_wandb_run st)
       (with_trace (st_trace st ++ wandb_setup_events self (st_wandb_run st)) st)).
Proof.
  unfold when, wandb_setup_events. destruct (use_wandb self); cbn [orb].
  - unfold bind at 1, gets. destruct (st_wandb_run st) eqn:Hrun.
    + unfold bind, print, emit. rewrite for_each_saves. cbn.
      rewrite <- app_assoc. destruct st; cbn in *. subst. reflexivity.
    + unfold bind, create_wandb_run, print, emit, modify, bind.
      rewrite for_each_saves. cbn. rewrite <- !app_assoc. reflexivity.
  - unfold ret. destruct st; cbn. rewrite app_nil_r. reflexivity.
Qed.

Lemma bind_gets {A B} (f : state -> A) (k : A -> M B) st :
  bind (gets f) k st = k (f st) st.
Proof. reflexivity. Qed.

Lemma bind_ret {A B} (a : A) (k : A -> M B) st : bind (ret a) k st = k a st.
Proof. reflexivity. Qed.

Lemma bind_emit {B} e (k : unit -> M B) st :
  bind (emit e) k st = k tt (with_trace (st_trace st ++ [e]) st).
Proof. reflexivity. Qed.

Lemma bind_modify {B} f (k : unit -> M B) st : bind (modify f) k st = k tt (f st).
Proof. reflexivity. Qed.

Lemma bind_assoc {A B C} (m : M A) (k : A -> M B) (h : B -> M C) st :
  bind (bind m k) h st = bind m (fun a => bind (k a) h) st.
Proof. unfold bind. destruct (m st) as [[a|e| |] st1]; reflexivity. Qed.

(** Run-start setup, case by case. *)
Lemma will_start_extraction_cases self st :
  will_start_extraction self st
  = if is_directory (save_root_dir self) st
    then (Ok tt,
          with_wandb_run (use_wandb self || st_wandb_run st)
            (with_trace (st_trace st ++ wandb_setup_events self (st_wandb_run st)) st))
    else match mkdir_refusal (save_root_dir self) st with
         | Some e => (Raise e, st)
         | None =>
             (Ok tt,
              with_wandb_run (use_wandb self || st_wandb_run st)
                (with_trace (st_trace st ++ EvMkdir (save_root_dir self)
                                            :: wandb_setup_events self (st_wandb_run st))
                   (with_dirs (save_root_dir self :: st_dirs st)
                      (with_paths (save_root_dir self :: st_paths st) st))))
         end.
Proof.
  unfold will_start_extraction, os_path_isdir. rewrite bind_gets.
  destruct (is_directory (save_root_dir self) st) eqn:Hdir; cbn [negb when].
  - rewrite bind_ret. apply wandb_setup_spec.
  - unfold os_mkdir. rewrite bind_assoc, bind_gets.
    destruct (mkdir_refusal (save_root_dir self) st) as [e|] eqn:Hrefusal.
    + reflexivity.
    + rewrite bind_assoc, bind_emit, bind_modify.
      rewrite wandb_setup_spec. cbn. rewrite <- app_assoc. reflexivity.
Qed.






(** ** Persistence *)

(** X3: [postprocess_records] passes a collection through the result filter
    only when a filter is configured and the collection is not empty; when
    the filter raises, nothing is stored; otherwise the store of the file
    holds what was kept, and from then on the skip gate turns the file down. *)
Theorem postprocess_records_stores_and_closes_gate :
  forall self recs filename st,
    let db_name := db_name_for_file self filename in
    let kept := match filter_results self with
                | Some f => if length recs =? 0 then Returns recs else f recs
                | None => Returns recs
                end in
    match kept with
    | Returns kept_records =>
        exists st',
          postprocess_records self recs filename st = (Ok tt, st') /\
          store_content db_name (st_stores st') = Some kept_records /\
          (recs = [] -> st_trace st' = st_trace st ++ [EvDbWrite db_name []]) /\
          should_open_file self filename st'
          = (Ok false, with_trace (st_trace st' ++ [EvPrint (NSkipping filename)]) st')
    | Raises e =>
        postprocess_records self recs filename st
        = (Raise e, with_trace (st_trace st ++ [EvFilter]) st)
    end.
Proof.
  intros self recs filename st db_name kept. subst kept.
  assert (Hwrite : forall kept_records st0,
            exists st',
              db_write db_name kept_records st0 = (Ok tt, st') /\
              store_content db_name (st_stores st') = Some kept_records /\
              st_trace st' = st_trace st0 ++ [EvDbWrite db_name kept_records] /\
              should_open_file self filename st'
              = (Ok false, with_trace (st_trace st' ++ [EvPrint (NSkipping filename)]) st')).
  { intros kept_records st0. eexists. split; [ reflexivity | ].
    cbn [st_stores st_trace with_stores with_paths with_trace store_content].
    rewrite String.eqb_refl. split; [ reflexivity | ]. split; [ reflexivity | ].
    rewrite should_open_file_spec. fold db_name.
    cbn [st_paths with_stores with_paths with_trace]. rewrite mem_head. reflexivity. }
  unfold postprocess_records. fold db_name.
  destruct (filter_results self) as [f|].
  - destruct (length recs =? 0) eqn:Hlen; cbn [negb].
    + rewrite bind_ret. destruct (Hwrite recs st) as (st' & Hrun & Hstore & Htrace & Hgate).
      exists st'. repeat split; auto.
      intros ->. exact Htrace.
    + rewrite bind_assoc, bind_emit. destruct (f recs) as [kept_records|e]; cbn [lift].
      * rewrite bind_ret.
        destruct (Hwrite kept_records (with_trace (st_trace st ++ [EvFilter]) st))
          as (st' & Hrun & Hstore & Htrace & Hgate).
        exists st'. repeat split; auto.
        intros ->. discriminate.
      * reflexivity.
  - rewrite bind_ret. destruct (Hwrite recs st) as (st' & Hrun & Hstore & Htrace & Hgate).
    exists st'. repeat split; auto.
    intros ->. exact Htrace.
Qed.

(** ** One store per unit *)

Lemma mem_tail s a l : mem s l = true -> mem s (a :: l) = true.
Proof. unfold mem. cbn. intros ->. apply orb_true_r. Qed.

Lemma dispatch_block_keeps_paths self st p :
  mem p (st_paths st) = true ->
  mem p (st_paths (snd (dispatch_block self st))) = true.
Proof.
  intros Hp. unfold dispatch_block, when, call_with_document_dir.
  destruct (not_mpi_or is_main_thread self).
  - unfold bind at 1. rewrite will_start_extraction_cases.
    destruct (is_directory (save_root_dir self) st).
    + destruct (not_mpi_or _ self); cbn; exact Hp.
    + destruct (mkdir_refusal (save_root_dir self) st); [ exact Hp | ].
      destruct (not_mpi_or _ self); cbn; apply mem_tail; exact Hp.
  - rewrite bind_ret. destruct (not_mpi_or _ self); cbn; exact Hp.
Qed.

(** Whatever a call of [extract_paper] writes to a store, it writes to the
    store of its unit, which exists when the call is over. *)
Lemma store_written_is_on_disk w self document_path st :
  exists added,
    st_trace (snd (extract_paper w self document_path st)) = st_trace st ++ added /\
    forall d recs,
      In (EvDbWrite d recs) added ->
      d = db_name_for_file self document_path /\
      mem (db_name_for_file self document_path)
        (st_paths (snd (extract_paper w self document_path st))) = true.
Proof.
  destruct (mem (db_name_for_file self document_path) (st_paths st)) eqn:Hgate.
  - destruct (skipped_unit_untouched w self document_path st Hgate) as (td & Ht & Hs & _).
    eexists. split; [ exact Ht | ]. intros d recs Hin. in_cases Hin.
  - rewrite (extract_paper_not_skipped w _ _ _ Hgate).
    unfold bind at 1. unfold_processor. cbn.
    replies.
    all: run_dispatch; eexists; (split; [ reflexivity | ]); intros d recs' Hin;
      in_cases Hin; try contradiction.
    all: try (injection Hin as <- <-).
    all: split; [ reflexivity | ].
    all: try (apply dispatch_block_keeps_paths).
    all: cbn [st_paths with_trace with_stores with_paths with_cached]; apply mem_head.
Qed.

(** X4: whatever a call of [extract_paper] writes to a store, it writes to
    the store of its own unit, and the unit is then turned down by the skip
    gate in every call that follows on the same state: the document is not
    loaded again and its store is left as it is, also when the first call
    failed after the write. *)
Theorem stored_unit_is_skipped_next_time :
  forall w self document_path st,
    let st1 := snd (extract_paper w self document_path st) in
    exists added,
      st_trace st1 = st_trace st ++ added /\
      forall d recs,
        In (EvDbWrite d recs) added ->
        d = db_name_for_file self document_path /\
        mem d (st_paths st1) = true /\
        exists td,
          st_trace (snd (extract_paper w self document_path st1))
          = st_trace st1 ++ EvPrint (NSkipping document_path)
                            :: EvPrint (NTook document_path) :: td /\
          forallb setup_event td = true /\
          st_stores (snd (extract_paper w self document_path st1)) = st_stores st1.
Proof.
  intros w self document_path st st1.
  destruct (store_written_is_on_disk w self document_path st) as (added & Ht & Hwritten).
  exists added. split; [ exact Ht | ].
  intros d recs Hin. destruct (Hwritten d recs Hin) as (Hd & Hdisk).
  split; [ exact Hd | ]. split; [ rewrite Hd; exact Hdisk | ].
  destruct (skipped_unit_untouched w self document_path st1 Hdisk) as (td & Ht1 & Hs & Hstores & _).
  exists td. auto.
Qed.

(** X4 at the second paper of the corpus, processed on a fresh state and
    then once more. *)
Lemma stored_unit_is_skipped_next_time_witness :
  let st1 := snd (extract_paper Scenario.corpus Scenario.plain "docs/b.xml"
                    initial_state) in
  In (EvDbWrite "out/b" ["yield strength"]) (st_trace st1) /\
  mem "out/b" (st_paths st1) = true /\
  exists td,
    st_trace (snd (extract_paper Scenario.corpus Scenario.plain "docs/b.xml" st1))
    = st_trace st1 ++ EvPrint (NSkipping "docs/b.xml")
                      :: EvPrint (NTook "docs/b.xml") :: td /\
    forallb setup_event td = true /\
    st_stores (snd (extract_paper Scenario.corpus Scenario.plain "docs/b.xml" st1))
    = st_stores st1.
Proof.
  intros st1.
  destruct (stored_unit_is_skipped_next_time Scenario.corpus Scenario.plain
              "docs/b.xml" initial_state) as (added & Ht & Hnext).
  assert (Hin : In (EvDbWrite "out/b" ["yield strength"]) added).
  { vm_compute in Ht. rewrite <- Ht. cbn [In]. auto 10. }
  split; [ subst st1; rewrite Ht; exact Hin | ].
  destruct (Hnext "out/b" ["yield strength"] Hin) as (_ & Hdisk & Hskip).
  split; [ exact Hdisk | exact Hskip ].
Defined.

(** ** Failures of the collaborators *)

(** X5: when reading [doc.records] raises, only [TimeoutError] is turned
    into an empty collection, which is stored without passing the result
    filter; any other exception leaves [extract_paper] with nothing stored
    and nothing cached for the unit. *)
Theorem only_timeout_is_stored_as_empty :
  forall w self document_path st e,
    mem (db_name_for_file self document_path) (st_paths st) = false ->
    (forall doc, doc_path doc = document_path -> records w doc = Raises e) ->
    let run := extract_paper w self document_path st in
    let db_name := db_name_for_file self document_path in
    exists added,
      st_trace (snd run) = st_trace st ++ added /\
      (In (EvRecords document_path) added ->
       if is_TimeoutError e
       then ~ In EvFilter added /\
            In (EvDbWrite db_name []) added /\
            store_content db_name (st_stores (snd run)) = Some []
       else fst run = Raise e /\
            st_stores (snd run) = st_stores st /\
            st_cached (snd run) = st_cached st /\
            forall d recs, ~ In (EvDbWrite d recs) added).
Proof.
  intros w self document_path st e Hgate Hrec run db_name. subst run db_name.
  rewrite (extract_paper_not_skipped w _ _ _ Hgate).
  unfold bind at 1 2 3. unfold_processor. cbn.
  repeat first [ rewrite Hrec by (cbn; apply configure_document_path); cbn
               | reply ].
  all: run_dispatch; eexists; (split; [ reflexivity | ]); intros Hin; in_cases Hin;
    try contradiction.
  all: try match goal with H : is_TimeoutError _ = _ |- _ => rewrite H end.
  all: split_all; unfold not; intros;
    repeat match goal with H : In _ _ |- _ => in_cases H; try contradiction end;
    try reflexivity.
  all: try (cbn [In]; auto 10).
  all: cbn [store_content]; rewrite ?String.eqb_refl; try reflexivity.
  all: rewrite String.eqb_refl in *; discriminate.
Qed.

(** X5 at the first paper of the corpus, whose extraction times out. *)
Lemma only_timeout_is_stored_as_empty_witness :
  let run := extract_paper Scenario.corpus Scenario.plain "docs/a.xml" initial_state in
  exists added,
    st_trace (snd run) = added /\
    ~ In EvFilter added /\
    In (EvDbWrite "out/a" []) added /\
    store_content "out/a" (st_stores (snd run)) = Some [].
Proof.
  intros run.
  destruct (only_timeout_is_stored_as_empty Scenario.corpus Scenario.plain
              "docs/a.xml" initial_state TimeoutError) as (added & Ht & Hstored).
  - reflexivity.
  - intros doc Hdoc. cbn. rewrite Hdoc. reflexivity.
  - exists added. split; [ exact Ht | ].
    apply Hstored. vm_compute in Ht. rewrite <- Ht. cbn [In]. auto 10.
Defined.

(** X6: an exception of the loader or of the validator is not caught. After
    a failed load [extract_paper] is over with nothing else done. A
    validator that raises on a document that got as far ends the call
    right after it was asked: before the alarm, the reading of the records
    and the store, with the state otherwise unchanged. *)
Theorem loader_or_validator_failure_stores_nothing :
  forall w self document_path st e,
    mem (db_name_for_file self document_path) (st_paths st) = false ->
    let run := extract_paper w self document_path st in
    (from_file w document_path = Raises e ->
     run = (Raise e, with_trace (st_trace st ++ [EvFromFile document_path]) st)) /\
    (forall validator,
       from_file w document_path = Returns tt ->
       hydration_lets_through w self document_path ->
       is_valid_document self = Some validator ->
       (forall doc, doc_path doc = document_path -> validator doc = Raises e) ->
       exists added,
         run = (Raise e, with_trace (st_trace st ++ added) st) /\
         added = EvFromFile document_path
                 :: hydration_events self document_path
                 ++ [EvValidate document_path] /\
         (forall n, ~ In (EvAlarm n) added) /\
         (forall p, ~ In (EvRecords p) added) /\
         (forall d recs, ~ In (EvDbWrite d recs) added)).
Proof.
  intros w self document_path st e Hgate run. subst run.
  rewrite (extract_paper_not_skipped w _ _ _ Hgate). split.
  - intros Hload. unfold bind at 1, process_document, Document_from_file.
    rewrite bind_assoc, bind_emit, bind_assoc, Hload. reflexivity.
  - intros validator Hfrom Hhydration Hval Hraises.
    unfold hydration_lets_through in Hhydration.
    assert (Hquiet : forall added,
              added = EvFromFile document_path
                      :: hydration_events self document_path
                      ++ [EvValidate document_path] ->
              (forall n, ~ In (EvAlarm n) added) /\
              (forall p, ~ In (EvRecords p) added) /\
              (forall d recs, ~ In (EvDbWrite d recs) added)).
    { intros added ->. unfold hydration_events.
      destruct (cacher self); cbn [app In]; split_all; intros;
        intuition discriminate. }
    eexists. split; [ | split; [ reflexivity | apply Hquiet; reflexivity ] ].
    unfold_processor. rewrite Hval, Hfrom. cbn.
    unfold hydration_events.
    destruct (cache_dir self) as [d|] eqn:Hdir; cbn.
    + destruct (cacher self) as [c|] eqn:Hcacher; cbn.
      * destruct (hydrate_document w document_path) as [[]|e1] eqn:Hh; cbn;
          [ | rewrite (Hhydration c e1 eq_refl eq_refl); cbn ].
        all: rewrite Hraises by (cbn; apply configure_document_path); cbn.
        all: rewrite ?configure_document_path; cbn [doc_path];
          repeat rewrite <- app_assoc; reflexivity.
      * rewrite Hraises by (cbn; apply configure_document_path). cbn.
        rewrite ?configure_document_path; cbn [doc_path].
        repeat rewrite <- app_assoc. reflexivity.
    + assert (Hnone : cacher self = None) by (unfold cacher; rewrite Hdir; reflexivity).
      rewrite Hnone.
      rewrite Hraises by (cbn; apply configure_document_path). cbn.
      rewrite ?configure_document_path; cbn [doc_path].
      repeat rewrite <- app_assoc. reflexivity.
Qed.

(** X6 at a paper the loader cannot parse and at a validator that fails. *)
Lemma loader_or_validator_failure_stores_nothing_witness :
  extract_paper unparsable_corpus Scenario.plain "docs/a.xml" initial_state
  = (Raise (OtherException "ParseError"),
     with_trace [EvFromFile "docs/a.xml"] initial_state) /\
  extract_paper Scenario.corpus with_failing_validator "docs/b.xml" initial_state
  = (Raise (OtherException "ValueError"),
     with_trace [EvFromFile "docs/b.xml"; EvHydrate "docs/b.xml";
                 EvValidate "docs/b.xml"] initial_state).
Proof.
  split.
  - destruct (loader_or_validator_failure_stores_nothing unparsable_corpus
                Scenario.plain "docs/a.xml" initial_state
                (OtherException "ParseError")) as [Hload _].
    + reflexivity.
    + apply Hload. reflexivity.
  - destruct (loader_or_validator_failure_stores_nothing Scenario.corpus
                with_failing_validator "docs/b.xml" initial_state
                (OtherException "ValueError")) as [_ Hvalidator].
    + reflexivity.
    + destruct (Hvalidator (fun _ => Raises (OtherException "ValueError")))
        as (added & Hrun & Hadded & _).
      * reflexivity.
      * intros c e _ He. injection He as <-. reflexivity.
      * reflexivity.
      * intros doc _. reflexivity.
      * rewrite Hrun, Hadded. reflexivity.
Defined.

(** ** The primary under a cap *)

Lemma firstn_then_skipn {A} (l : list A) a b :
  firstn (a + b) l = firstn a l ++ firstn b (skipn a l).
Proof.
  revert l. induction a as [|a IH]; intros [|x l]; cbn; auto.
  - destruct b; reflexivity.
  - rewrite IH. reflexivity.
Qed.

Lemma assignments_app t1 t2 : assignments (t1 ++ t2) = assignments t1 ++ assignments t2.
Proof. unfold assignments. apply flat_map_app. Qed.

Section Capped.
Variable w : world.

(** From the second turn on, with [target] units to hand out in all: the
    primary answers each report with the next unit while the position is
    below [target], then only collects the reports that are due. *)
Lemma primary_loop_capped self c K document_dir filenames cap target :
  mpi self = Some c -> rank c = 0 ->
  (cap <= Z.of_nat target)%Z ->
  target <= length filenames ->
  forall n index n_finished st fuel,
    n = target - n_finished ->
    n_finished < index -> index <= target ->
    index = target \/ Z.of_nat target = cap ->
    in_flight K (st_mail st) ->
    length (st_mail st) = index - n_finished ->
    n <= fuel ->
    exists st' reporters t,
      primary_loop w fuel self c document_dir filenames cap index n_finished st
      = (Ok tt, st') /\
      length reporters = n /\
      Forall (fun r => 1 <= r <= K) reporters /\
      st_trace st' = st_trace st ++ t /\
      primary_view t
      = rounds document_dir (firstn (target - index) (skipn index filenames)) reporters /\
      st_mail st' = [].
Proof.
  intros Hmpi Hrank Hcap Htarget n.
  induction n as [|n IH];
    intros index n_finished st fuel Hn Hlt Hle Hwhich Hfl Hlen Hfuel; [ lia | ].
  destruct fuel as [|fuel]; [ lia | ].
  cbn [primary_loop].
  destruct index as [|index']; [ lia | ]. cbn [Nat.eqb].
  remember (S index') as index eqn:Hindex.
  assert (Hne : st_mail st <> []).
  { intros H. rewrite H in Hlen. cbn in Hlen. lia. }
  destruct (comm_recv_any_spec w self c K st Hmpi Hrank Hfl Hne)
    as (r & st1 & t1 & Hrecv & Hr & Hfl1 & Hfresh & Hlen1 & Ht1 & Hview1).
  rewrite (bind_ok _ _ _ _ _ Hrecv).
  destruct (wandb_log_when self (n_finished + 1) st1) as (tw & Hlog & Hvieww).
  rewrite (bind_ok _ _ _ _ _ Hlog).
  set (st2 := with_trace (st_trace st1 ++ tw) st1).
  destruct (Nat.eq_dec index target) as [Hall|Hmore].
  - (* the units to hand out are assigned *)
    replace ((cap <=? Z.of_nat index)%Z) with true
      by (symmetry; apply Z.leb_le; lia).
    replace ((Z.of_nat index <? cap)%Z) with false
      by (symmetry; apply Z.ltb_ge; lia).
    rewrite andb_true_r.
    replace (target - index) with 0 by lia. cbn [firstn].
    destruct (Nat.eqb_spec (n_finished + 1) index) as [Hlast|Hnot].
    + exists st2, [r], (t1 ++ tw). unfold ret. split; [ reflexivity | ].
      split; [ cbn; lia | ]. split; [ constructor; auto | ].
      split; [ cbn; rewrite Ht1, app_assoc; reflexivity | ].
      split; [ rewrite primary_view_app, Hview1, Hvieww; reflexivity | ].
      cbn. destruct (st_mail st1); [ reflexivity | cbn in Hlen1; lia ].
    + destruct (IH index (n_finished + 1) st2 fuel)
        as (st' & rs & t & Hloop & Hrs & Hbound & Ht & Hview & Hmail);
        try lia; auto.
      { cbn. lia. }
      exists st', (r :: rs), (t1 ++ tw ++ t). split; [ exact Hloop | ].
      split; [ cbn; lia | ]. split; [ constructor; auto | ].
      split; [ rewrite Ht; cbn; rewrite Ht1, <- !app_assoc; reflexivity | ].
      split; [ | exact Hmail ].
      rewrite !primary_view_app, Hview1, Hvieww, Hview.
      replace (target - index) with 0 by lia. reflexivity.
  - (* units are pending *)
    assert (Hlt' : index < target) by lia.
    assert (Hcap' : Z.of_nat target = cap) by (destruct Hwhich; [ lia | assumption ]).
    replace ((cap <=? Z.of_nat index)%Z) with false
      by (symmetry; apply Z.leb_gt; lia).
    replace ((Z.of_nat index <? cap)%Z) with true
      by (symmetry; apply Z.ltb_lt; lia).
    rewrite andb_false_r.
    destruct (nth_error filenames index) as [filename|] eqn:Hnth;
      [ | apply nth_error_None in Hnth; lia ].
    unfold print, emit, bind at 1. unfold list_index. rewrite Hnth.
    unfold bind at 1, ret at 1.
    match goal with
    | |- context [bind (_send_to_worker self r ?path) ?k ?s] =>
        rewrite (bind_ok _ k _ _ _ (send_to_worker_spec self c r path s Hmpi Hrank));
        set (st3 := with_mail (st_mail s ++ [assignment_envelope r path])
                      (with_trace (st_trace s ++ [EvSend 0 r AWAITING_DATA_TAG
                                                        (assignment path)]) s))
    end.
    destruct (IH (index + 1) (n_finished + 1) st3 fuel)
      as (st' & rs & t & Hloop & Hrs & Hbound & Ht & Hview & Hmail); try lia.
    { cbn. apply in_flight_add; auto. }
    { cbn. rewrite length_app. cbn. lia. }
    exists st', (r :: rs),
      (t1 ++ tw ++ [EvPrint (NProgress index cap);
                    assign_event document_dir r filename] ++ t).
    split; [ exact Hloop | ].
    split; [ cbn; lia | ]. split; [ constructor; auto | ].
    split; [ rewrite Ht; cbn; rewrite Ht1, <- !app_assoc; reflexivity | ].
    split; [ | exact Hmail ].
    rewrite !primary_view_app, Hview1, Hvieww, Hview.
    rewrite (skipn_cons_nth_error _ _ _ Hnth).
    replace (target - index) with (S (target - (index + 1))) by lia.
    replace (index + 1) with (S index) by lia. reflexivity.
Qed.

(** With a cap beyond the units there are, the primary goes on answering
    reports until the position leaves the list: [filenames[index]] raises
    [IndexError] on the report that follows the last assignment. *)
Lemma primary_loop_overrun self c K document_dir filenames cap :
  mpi self = Some c -> rank c = 0 ->
  (Z.of_nat (length filenames) < cap)%Z ->
  forall n index n_finished st fuel,
    n = length filenames - index ->
    n_finished < index -> index <= length filenames ->
    in_flight K (st_mail st) ->
    length (st_mail st) = index - n_finished ->
    n < fuel ->
    exists st' reporters t,
      primary_loop w fuel self c document_dir filenames cap index n_finished st
      = (Raise IndexError, st') /\
      length reporters = S n /\
      Forall (fun r => 1 <= r <= K) reporters /\
      st_trace st' = st_trace st ++ t /\
      primary_view t = rounds document_dir (skipn index filenames) reporters /\
      in_flight K (st_mail st') /\
      S (length (st_mail st')) = index - n_finished.
Proof.
  intros Hmpi Hrank Hcap n.
  induction n as [|n IH];
    intros index n_finished st fuel Hn Hlt Hle Hfl Hlen Hfuel;
    (destruct fuel as [|fuel]; [ lia | ]);
    cbn [primary_loop];
    (destruct index as [|index']; [ lia | ]); cbn [Nat.eqb];
    remember (S index') as index eqn:Hindex;
    (assert (Hne : st_mail st <> [])
       by (intros H; rewrite H in Hlen; cbn in Hlen; lia));
    destruct (comm_recv_any_spec w self c K st Hmpi Hrank Hfl Hne)
      as (r & st1 & t1 & Hrecv & Hr & Hfl1 & Hfresh & Hlen1 & Ht1 & Hview1);
    rewrite (bind_ok _ _ _ _ _ Hrecv);
    destruct (wandb_log_when self (n_finished + 1) st1) as (tw & Hlog & Hvieww);
    rewrite (bind_ok _ _ _ _ _ Hlog);
    replace ((cap <=? Z.of_nat index)%Z) with false
      by (symmetry; apply Z.leb_gt; lia);
    replace ((Z.of_nat index <? cap)%Z) with true
      by (symmetry; apply Z.ltb_lt; lia);
    rewrite andb_false_r;
    unfold print, emit, bind at 1; unfold list_index.
  - (* the position has left the list *)
    assert (Hnth : nth_error filenames index = None) by (apply nth_error_None; lia).
    rewrite Hnth. unfold bind at 1, raise.
    eexists _, [r], (t1 ++ tw ++ [EvPrint (NProgress index cap)]).
    split; [ reflexivity | ].
    split; [ reflexivity | ]. split; [ constructor; auto | ].
    split; [ cbn; rewrite Ht1, <- !app_assoc; reflexivity | ].
    split; [ rewrite !primary_view_app, Hview1, Hvieww;
             rewrite (skipn_all2 filenames) by lia; reflexivity | ].
    cbn. split; [ exact Hfl1 | lia ].
  - destruct (nth_error filenames index) as [filename|] eqn:Hnth;
      [ | apply nth_error_None in Hnth; lia ].
    unfold bind at 1, ret at 1.
    match goal with
    | |- context [bind (_send_to_worker self r ?path) ?k ?s] =>
        rewrite (bind_ok _ k _ _ _ (send_to_worker_spec self c r path s Hmpi Hrank));
        set (st3 := with_mail (st_mail s ++ [assignment_envelope r path])
                      (with_trace (st_trace s ++ [EvSend 0 r AWAITING_DATA_TAG
                                                        (assignment path)]) s))
    end.
    destruct (IH (index + 1) (n_finished + 1) st3 fuel)
      as (st' & rs & t & Hloop & Hrs & Hbound & Ht & Hview & Hfl' & Hlen'); try lia.
    { cbn. apply in_flight_add; auto. }
    { cbn. rewrite length_app. cbn. lia. }
    exists st', (r :: rs),
      (t1 ++ tw ++ [EvPrint (NProgress index cap);
                    assign_event document_dir r filename] ++ t).
    split; [ exact Hloop | ].
    split; [ cbn; lia | ]. split; [ constructor; auto | ].
    split; [ rewrite Ht; cbn; rewrite Ht1, <- !app_assoc; reflexivity | ].
    split; [ | split; [ exact Hfl' | lia ] ].
    rewrite !primary_view_app, Hview1, Hvieww, Hview.
    rewrite (skipn_cons_nth_error _ _ _ Hnth).
    replace (index + 1) with (S index) by lia. reflexivity.
Qed.

(** Without a worker the first turn assigns nothing and leaves the position
    at 0, so the next turn is a first turn again. *)
Lemma primary_loop_spins self c document_dir filenames cap :
  size c <= 1 ->
  forall fuel n_finished st,
    primary_loop w fuel self c document_dir filenames cap 0 n_finished st
    = (OutOfFuel, st).
Proof.
  intros Hsize fuel. induction fuel as [|fuel IH]; intros n_finished st.
  - reflexivity.
  - cbn [primary_loop Nat.eqb]. replace (size c - 1) with 0 by lia.
    cbn [seq fan_out]. rewrite bind_ret. apply IH.
Qed.

(** The primary up to its loop. *)
Lemma extract_mpi_primary self c document_dir names filenames num_papers fuel st :
  mpi self = Some c -> rank c = 0 ->
  listdir w document_dir = Returns names ->
  work_units names = Returns filenames ->
  _extract_mpi w fuel self document_dir num_papers st
  = (primary_loop w fuel self c document_dir filenames
       (match num_papers with
        | None => Z.of_nat (length filenames)
        | Some n => n
        end) 0 0 ;;
     for_each (_exit_worker self) (seq 1 (size c - 1)) ;;
     print NWholeTook)%py st.
Proof.
  intros Hmpi Hrank Hlist Hunits.
  unfold _extract_mpi. rewrite Hmpi. unfold is_main_thread. rewrite Hrank.
  cbn [Nat.eqb]. rewrite Hlist. unfold bind at 1. cbn [lift ret].
  rewrite Hunits. unfold bind at 1. cbn [lift ret]. reflexivity.
Qed.

(** The first turn with a unit for each of the [K] workers. *)
Lemma primary_loop_first_turn self c K document_dir filenames cap fuel st :
  mpi self = Some c -> rank c = 0 -> size c = S K ->
  K <= length filenames ->
  primary_loop w (S fuel) self c document_dir filenames cap 0 0 st
  = primary_loop w fuel self c document_dir filenames cap K 0
      (with_mail (st_mail st ++ fan_out_mail document_dir (seq 1 K) filenames)
         (with_trace (st_trace st ++ fan_out_events document_dir (seq 1 K) filenames)
            st)).
Proof.
  intros Hmpi Hrank Hsize HK.
  cbn [primary_loop Nat.eqb]. replace (size c - 1) with K by lia.
  pose proof (fan_out_spec self c document_dir filenames Hmpi Hrank (seq 1 K) 0 st) as Hfan.
  rewrite length_seq_workers in Hfan. cbn [skipn Nat.add] in Hfan.
  replace (K <=? length filenames) with true in Hfan
    by (symmetry; apply Nat.leb_le; lia).
  rewrite (bind_ok _ _ _ _ _ Hfan). reflexivity.
Qed.

End Capped.

(** X7: with K workers and at least K units, the primary hands out the
    larger of K and the cap (every unit when there is no cap): it assigns
    the first units in order, receives as many reports as it made
    assignments, then sends the exit message to each worker and returns,
    whatever the schedule. *)
Theorem primary_hands_out_larger_of_cap_and_workers :
  forall w self K document_dir names filenames num_papers st fuel,
    mpi self = Some {| rank := 0; size := S K |} ->
    listdir w document_dir = Returns names ->
    work_units names = Returns filenames ->
    1 <= K ->
    let cap := match num_papers with
               | None => Z.of_nat (length filenames)
               | Some n => n
               end in
    let handed_out := units_handed_out K cap in
    handed_out <= length filenames ->
    st_mail st = [] ->
    handed_out < fuel ->
    exists st' reporters added,
      _extract_mpi w fuel self document_dir num_papers st = (Ok tt, st') /\
      st_trace st' = st_trace st ++ added /\
      length reporters = handed_out /\
      Forall (fun r => 1 <= r <= K) reporters /\
      primary_view added
      = fan_out_events document_dir (seq 1 K) filenames
        ++ rounds document_dir
             (firstn (handed_out - K) (skipn K filenames)) reporters
        ++ map exit_event (seq 1 K) /\
      map snd (assignments (primary_view added))
      = map (PosixPath.join document_dir) (firstn handed_out filenames) /\
      reports (primary_view added) = handed_out /\
      st_mail st' = map exit_envelope (seq 1 K).
Proof.
  intros w self K document_dir names filenames num_papers st fuel
         Hmpi Hlist Hunits HK cap handed_out Htarget Hmail Hfuel.
  remember handed_out as target eqn:Hdef.
  unfold handed_out, units_handed_out in Hdef. clear handed_out.
  set (c := {| rank := 0; size := S K |}) in *.
  assert (Hrank : rank c = 0) by reflexivity.
  destruct fuel as [|fuel]; [ lia | ].
  rewrite (extract_mpi_primary w self c document_dir names filenames num_papers
             (S fuel) st Hmpi Hrank Hlist Hunits).
  fold cap.
  replace (size c - 1) with K by (cbn; lia).
  unfold bind at 1.
  rewrite (primary_loop_first_turn w self c K document_dir filenames cap fuel st
             Hmpi Hrank eq_refl) by lia.
  rewrite Hmail. cbn [app].
  match goal with
  | |- context [primary_loop _ _ _ _ _ _ _ _ _ ?s] => set (st1 := s)
  end.
  destruct (primary_loop_capped w self c K document_dir filenames cap target
              Hmpi Hrank) with (n := target) (index := K) (n_finished := 0)
              (st := st1) (fuel := fuel)
    as (st2 & reporters & t & Hloop & Hlen & Hbound & Ht & Hview & Hmail2);
    try lia.
  { cbn. apply fan_out_mail_in_flight.
    - rewrite length_seq_workers. lia.
    - apply seq_NoDup.
    - apply seq_workers_bounds. }
  { cbn. rewrite <- (length_map env_dest), fan_out_mail_dests, length_seq_workers;
      [ lia | rewrite length_seq_workers; lia ]. }
  rewrite Hloop.
  rewrite (bind_ok _ _ _ _ _ (exit_workers_spec self c Hmpi Hrank (seq 1 K) st2)).
  unfold print, emit.
  eexists _, reporters,
    (fan_out_events document_dir (seq 1 K) filenames ++ t
     ++ map exit_event (seq 1 K) ++ [EvPrint NWholeTook]).
  assert (Hviewall :
    primary_view (fan_out_events document_dir (seq 1 K) filenames ++ t
                  ++ map exit_event (seq 1 K) ++ [EvPrint NWholeTook])
    = fan_out_events document_dir (seq 1 K) filenames
      ++ rounds document_dir (firstn (target - K) (skipn K filenames)) reporters
      ++ map exit_event (seq 1 K)).
  { rewrite !primary_view_app, fan_out_events_view, exit_events_view, Hview.
    cbn. rewrite app_nil_r. reflexivity. }
  split; [ reflexivity | ].
  split; [ cbn; rewrite Ht; cbn; rewrite <- !app_assoc; reflexivity | ].
  split; [ lia | ]. split; [ exact Hbound | ].
  split; [ exact Hviewall | ].
  rewrite Hviewall, !assignments_app, assignments_exits, app_nil_r.
  rewrite assignments_fan_out by (rewrite length_seq_workers; lia).
  rewrite length_seq_workers.
  split; [ | split ].
  - rewrite map_app, assignments_rounds
      by (rewrite length_firstn, length_skipn; lia).
    rewrite combine_snd by (rewrite length_map, length_firstn, length_seq_workers; lia).
    rewrite <- map_app, <- firstn_then_skipn. f_equal. f_equal. lia.
  - rewrite !reports_app, reports_fan_out, reports_rounds, reports_exits. lia.
  - cbn. rewrite Hmail2. reflexivity.
Qed.

(** X7 at five papers for two workers with the cap at 1: two units are
    handed out. *)
Lemma primary_hands_out_larger_of_cap_and_workers_witness :
  exists st' reporters added,
    _extract_mpi Scenario.corpus 3 (Scenario.ranked 0 3) "docs" (Some 1%Z)
      (with_sched [1; 0] initial_state) = (Ok tt, st') /\
    st_trace st' = added /\
    length reporters = 2 /\
    Forall (fun r => 1 <= r <= 2) reporters /\
    primary_view added
    = [assign_event "docs" 1 "a.xml"; assign_event "docs" 2 "b.xml"]
      ++ rounds "docs" [] reporters
      ++ [exit_event 1; exit_event 2] /\
    map snd (assignments (primary_view added)) = ["docs/a.xml"; "docs/b.xml"] /\
    reports (primary_view added) = 2 /\
    st_mail st' = [exit_envelope 1; exit_envelope 2].
Proof.
  apply (primary_hands_out_larger_of_cap_and_workers Scenario.corpus
           (Scenario.ranked 0 3) 2 "docs"
           ["a.xml"; "b.xml"; "c.xml"; "d.xml"; "e.xml"]
           ["a.xml"; "b.xml"; "c.xml"; "d.xml"; "e.xml"] (Some 1%Z)
           (with_sched [1; 0] initial_state) 3).
  - reflexivity.
  - reflexivity.
  - reflexivity.
  - lia.
  - vm_compute. lia.
  - reflexivity.
  - vm_compute. lia.
Defined.

(** X8: with a cap beyond the units there are, the primary assigns every
    unit and then ends in [IndexError] on the report that follows the last
    assignment: no exit message is sent, and the assignments of the other
    workers are still in flight. *)
Theorem primary_overruns_units_under_large_cap :
  forall w self K document_dir names filenames cap st fuel,
    mpi self = Some {| rank := 0; size := S K |} ->
    listdir w document_dir = Returns names ->
    work_units names = Returns filenames ->
    1 <= K ->
    K <= length filenames ->
    (Z.of_nat (length filenames) < cap)%Z ->
    st_mail st = [] ->
    length filenames - K + 1 < fuel ->
    exists st' reporters added,
      _extract_mpi w fuel self document_dir (Some cap) st = (Raise IndexError, st') /\
      st_trace st' = st_trace st ++ added /\
      length reporters = length filenames - K + 1 /\
      Forall (fun r => 1 <= r <= K) reporters /\
      primary_view added
      = fan_out_events document_dir (seq 1 K) filenames
        ++ rounds document_dir (skipn K filenames) reporters /\
      map snd (assignments (primary_view added))
      = map (PosixPath.join document_dir) filenames /\
      reports (primary_view added) = length filenames - K + 1 /\
      in_flight K (st_mail st') /\
      length (st_mail st') = K - 1.
Proof.
  intros w self K document_dir names filenames cap st fuel
         Hmpi Hlist Hunits HK HKW Hcap Hmail Hfuel.
  set (c := {| rank := 0; size := S K |}) in *.
  assert (Hrank : rank c = 0) by reflexivity.
  destruct fuel as [|fuel]; [ lia | ].
  rewrite (extract_mpi_primary w self c document_dir names filenames (Some cap)
             (S fuel) st Hmpi Hrank Hlist Hunits).
  unfold bind at 1.
  rewrite (primary_loop_first_turn w self c K document_dir filenames cap fuel st
             Hmpi Hrank eq_refl) by lia.
  rewrite Hmail. cbn [app].
  match goal with
  | |- context [primary_loop _ _ _ _ _ _ _ _ _ ?s] => set (st1 := s)
  end.
  destruct (primary_loop_overrun w self c K document_dir filenames cap
              Hmpi Hrank Hcap) with (n := length filenames - K) (index := K)
              (n_finished := 0) (st := st1) (fuel := fuel)
    as (st2 & reporters & t & Hloop & Hlen & Hbound & Ht & Hview & Hfl & Hleft);
    try lia.
  { cbn. apply fan_out_mail_in_flight.
    - rewrite length_seq_workers. lia.
    - apply seq_NoDup.
    - apply seq_workers_bounds. }
  { cbn. rewrite <- (length_map env_dest), fan_out_mail_dests, length_seq_workers;
      [ lia | rewrite length_seq_workers; lia ]. }
  rewrite Hloop.
  exists st2, reporters, (fan_out_events document_dir (seq 1 K) filenames ++ t).
  assert (Hviewall :
    primary_view (fan_out_events document_dir (seq 1 K) filenames ++ t)
    = fan_out_events document_dir (seq 1 K) filenames
      ++ rounds document_dir (skipn K filenames) reporters).
  { rewrite primary_view_app, fan_out_events_view, Hview. reflexivity. }
  split; [ reflexivity | ].
  split; [ rewrite Ht; cbn; rewrite <- !app_assoc; reflexivity | ].
  split; [ lia | ]. split; [ exact Hbound | ].
  split; [ exact Hviewall | ].
  rewrite Hviewall, !assignments_app.
  rewrite assignments_fan_out by (rewrite length_seq_workers; lia).
  rewrite length_seq_workers.
  split; [ | split; [ | split ] ].
  - rewrite map_app, assignments_rounds by (rewrite length_skipn; lia).
    rewrite combine_snd by (rewrite length_map, length_firstn, length_seq_workers; lia).
    rewrite <- map_app, firstn_skipn. reflexivity.
  - rewrite !reports_app, reports_fan_out, reports_rounds. lia.
  - exact Hfl.
  - lia.
Qed.

(** X8 at two papers for two workers with the cap at 5. *)
Lemma primary_overruns_units_under_large_cap_witness :
  exists st' reporters added,
    _extract_mpi Scenario.two_papers 2 (Scenario.ranked 0 3) "docs" (Some 5%Z)
      initial_state = (Raise IndexError, st') /\
    st_trace st' = added /\
    length reporters = 1 /\
    Forall (fun r => 1 <= r <= 2) reporters /\
    primary_view added
    = [assign_event "docs" 1 "a.xml"; assign_event "docs" 2 "b.xml"]
      ++ rounds "docs" [] reporters /\
    map snd (assignments (primary_view added)) = ["docs/a.xml"; "docs/b.xml"] /\
    reports (primary_view added) = 1 /\
    in_flight 2 (st_mail st') /\
    length (st_mail st') = 1.
Proof.
  apply (primary_overruns_units_under_large_cap Scenario.two_papers
           (Scenario.ranked 0 3) 2 "docs" ["a.xml"; "b.xml"] ["a.xml"; "b.xml"]
           5%Z initial_state 2).
  - reflexivity.
  - reflexivity.
  - reflexivity.
  - lia.
  - simpl. lia.
  - simpl. lia.
  - reflexivity.
  - simpl. lia.
Defined.

(** X9: the primary of a distributed run without a worker never leaves
    its loop: the first turn assigns nothing and leaves the position at 0,
    so every turn is a first turn; nothing is sent or printed, and no
    number of turns ends the call. *)
Theorem primary_without_workers_never_leaves_loop :
  forall w self c document_dir names filenames num_papers st fuel,
    mpi self = Some c ->
    rank c = 0 ->
    size c <= 1 ->
    listdir w document_dir = Returns names ->
    work_units names = Returns filenames ->
    _extract_mpi w fuel self document_dir num_papers st = (OutOfFuel, st).
Proof.
  intros w self c document_dir names filenames num_papers st fuel
         Hmpi Hrank Hsize Hlist Hunits.
  rewrite (extract_mpi_primary w self c document_dir names filenames num_papers
             fuel st Hmpi Hrank Hlist Hunits).
  unfold bind at 1. rewrite primary_loop_spins by assumption. reflexivity.
Qed.

(** X9 at a distributed run of one process over the corpus. *)
Lemma primary_without_workers_never_leaves_loop_witness :
  _extract_mpi Scenario.corpus 50 (Scenario.ranked 0 1) "docs" None initial_state
  = (OutOfFuel, initial_state).
Proof.
  apply (primary_without_workers_never_leaves_loop Scenario.corpus
           (Scenario.ranked 0 1) {| rank := 0; size := 1 |} "docs"
           ["a.xml"; "b.xml"; "c.xml"; "d.xml"; "e.xml"]
           ["a.xml"; "b.xml"; "c.xml"; "d.xml"; "e.xml"] None initial_state 50).
  - reflexivity.
  - reflexivity.
  - simpl. lia.
  - reflexivity.
  - reflexivity.
Defined.

(** ** The single-process strategy *)

Lemma filter_none {A} (p : A -> bool) l :
  forallb (fun a => negb (p a)) l = true -> filter p l = [].
Proof.
  induction l as [|a l IH]; cbn; intros H; auto.
  apply andb_prop in H as [Ha Hl]. destruct (p a); [ discriminate | auto ].
Qed.

(** [extract_paper] prints neither an announcement nor the summary. *)
Lemma extract_paper_no_loop_notice w self document_path :
  footprint (fun e => negb (loop_notice e)) (extract_paper w self document_path).
Proof.
  unfold extract_paper, should_open_file, os_path_exists, print,
    dispatch_block, call_with_document_dir, will_start_extraction, os_mkdir,
    create_wandb_run.
  footprint_auto.
Qed.

(** X10: the single-process strategy returns only when it attempts no
    unit, that is when there is none or the cap is negative, and then it
    prints the summary and nothing else. As soon as it attempts a unit the
    call ends in the exception of [extract_paper]: the first unit is the
    only one announced and the summary is not printed. *)
Theorem single_process_run_returns_only_without_unit :
  forall w self document_dir names filenames num_papers st,
    listdir w document_dir = Returns names ->
    work_units names = Returns filenames ->
    let run := _extract_single_threaded w self document_dir num_papers st in
    match filenames with
    | filename :: _ =>
        if within_cap num_papers 0
        then (exists e, fst run = Raise e) /\
             exists added,
               st_trace (snd run) = st_trace st ++ added /\
               filter loop_notice added
               = [EvPrint (NPaper 1 (length filenames) filename)]
        else run = (Ok tt, with_trace (st_trace st ++ [EvPrint NWholeTook]) st)
    | [] => run = (Ok tt, with_trace (st_trace st ++ [EvPrint NWholeTook]) st)
    end.
Proof.
  intros w self document_dir names filenames num_papers st Hlist Hunits run.
  subst run.
  assert (Hrun : _extract_single_threaded w self document_dir num_papers st
                 = (single_threaded_loop w self document_dir num_papers
                      (length filenames) 0 filenames ;;
                    print NWholeTook)%py st).
  { unfold _extract_single_threaded.
    rewrite Hlist. unfold bind at 1. cbn [lift ret].
    rewrite Hunits. unfold bind at 1. cbn [lift ret]. reflexivity. }
  rewrite Hrun. clear Hrun.
  destruct filenames as [|filename rest]; [ reflexivity | ].
  cbn [single_threaded_loop]. unfold within_cap.
  destruct (match num_papers with
            | Some n => (n <? Z.of_nat 0)%Z
            | None => false
            end) eqn:Hcap.
  - destruct num_papers as [n|]; [ | discriminate ].
    rewrite Hcap. reflexivity.
  - replace (match num_papers with
             | Some n => negb (n <? Z.of_nat 0)%Z
             | None => true
             end) with true
      by (destruct num_papers; [ rewrite Hcap | ]; reflexivity).
    unfold print. rewrite bind_assoc, bind_emit.
    set (st1 := with_trace _ st).
    assert (Hlog : exists tw,
               forallb (fun e => negb (loop_notice e)) tw = true /\
               when (use_wandb self) (wandb_log 0) st1
               = (Ok tt, with_trace (st_trace st1 ++ tw) st1)).
    { unfold when. destruct (use_wandb self).
      - exists [EvWandbLog 0]. split; reflexivity.
      - exists []. split; [ reflexivity | ]. unfold ret.
        rewrite with_trace_nil. reflexivity. }
    destruct Hlog as (tw & Htw & Hlog).
    rewrite bind_assoc, (bind_ok _ _ _ _ _ Hlog).
    set (st2 := with_trace _ st1).
    rewrite bind_assoc.
    destruct (extract_paper_raises w self (PosixPath.join document_dir filename) st2)
      as (e & He).
    destruct (extract_paper_no_loop_notice w self
                (PosixPath.join document_dir filename) st2)
      as (t & Ht & HP & _).
    destruct (extract_paper w self (PosixPath.join document_dir filename) st2)
      as [o st3] eqn:Hpaper.
    cbn [fst snd] in He, Ht. subst o.
    rewrite (bind_raise _ _ _ _ _ Hpaper). cbn [fst snd].
    split; [ exists e; reflexivity | ].
    exists ([EvPrint (NPaper 1 (S (length rest)) filename)] ++ tw ++ t).
    split.
    + rewrite Ht. subst st2 st1. cbn. rewrite <- !app_assoc. reflexivity.
    + rewrite !filter_app, (filter_none loop_notice tw Htw),
        (filter_none loop_notice t HP). reflexivity.
Qed.

(** X10 at the corpus without a cap. *)
Lemma single_process_run_returns_only_without_unit_witness :
  let run := _extract_single_threaded Scenario.corpus Scenario.plain "docs" None
               initial_state in
  (exists e, fst run = Raise e) /\
  exists added,
    st_trace (snd run) = added /\
    filter loop_notice added = [EvPrint (NPaper 1 5 "a.xml")].
Proof.
  apply (single_process_run_returns_only_without_unit Scenario.corpus
           Scenario.plain "docs"
           ["a.xml"; "b.xml"; "c.xml"; "d.xml"; "e.xml"]
           ["a.xml"; "b.xml"; "c.xml"; "d.xml"; "e.xml"] None initial_state).
  - reflexivity.
  - reflexivity.
Defined.

(** ** The end of a skipped unit *)



(** ** Store names *)

Lemma append_assoc_s (a b c : string) : ((a ++ b) ++ c = a ++ (b ++ c))%string.
Proof. induction a as [|x a IH]; cbn; [ reflexivity | rewrite IH; reflexivity ]. Qed.

Lemma length_append_s (a b : string) :
  String.length (a ++ b) = String.length a + String.length b.
Proof. induction a as [|x a IH]; cbn; auto. Qed.

Lemma substring_all s : substring 0 (String.length s) s = s.
Proof. induction s as [|x s IH]; cbn; [ reflexivity | rewrite IH; reflexivity ]. Qed.

Lemma substring_take a b : substring 0 (String.length a) (a ++ b) = a.
Proof.
  induction a as [|x a IH]; cbn.
  - destruct b; reflexivity.
  - rewrite IH. reflexivity.
Qed.

Lemma substring_skip a b n : substring (String.length a) n (a ++ b) = substring 0 n b.
Proof. induction a as [|x a IH]; cbn; auto. Qed.

(** [c in s] for a single character, step by step. *)
Lemma contains_char_cons c a r :
  str_contains (String c "") (String a r)
  = Ascii.eqb a c || str_contains (String c "") r.
Proof.
  cbn [str_contains prefix].
  destruct (ascii_dec c a) as [->|Hne].
  - rewrite Ascii.eqb_refl. destruct r; reflexivity.
  - destruct (Ascii.eqb_spec a c) as [->|_]; [ contradiction | reflexivity ].
Qed.

Lemma contains_char_app c a b :
  str_contains (String c "") (a ++ b)
  = str_contains (String c "") a || str_contains (String c "") b.
Proof.
  induction a as [|x a IH].
  - reflexivity.
  - cbn [append]. rewrite !contains_char_cons, IH. apply orb_assoc.
Qed.

Lemma rfind_from_absent c s :
  str_contains (String c "") s = false ->
  forall i best, PosixPath.rfind_from c s i best = best.
Proof.
  induction s as [|a r IH]; intros H i best; [ reflexivity | ].
  rewrite contains_char_cons in H. apply orb_false_elim in H as [Ha Hr].
  cbn [PosixPath.rfind_from]. rewrite Ha. apply IH. exact Hr.
Qed.

Lemma rfind_from_app c a b :
  forall i best,
    PosixPath.rfind_from c (a ++ b) i best
    = PosixPath.rfind_from c b (i + PosixPath.len a)%Z (PosixPath.rfind_from c a i best).
Proof.
  unfold PosixPath.len.
  induction a as [|x a IH]; intros i best.
  - cbn. rewrite Z.add_0_r. reflexivity.
  - cbn [append PosixPath.rfind_from]. rewrite IH. f_equal.
    cbn [String.length]. lia.
Qed.

Lemma rfind_absent c s :
  str_contains (String c "") s = false -> PosixPath.rfind c s = (-1)%Z.
Proof. intros H. apply rfind_from_absent. exact H. Qed.

(** The last occurrence is the one that nothing follows. *)
Lemma rfind_last c a b :
  str_contains (String c "") b = false ->
  PosixPath.rfind c (a ++ String c b) = PosixPath.len a.
Proof.
  intros H. unfold PosixPath.rfind. rewrite rfind_from_app.
  cbn [PosixPath.rfind_from]. rewrite Ascii.eqb_refl.
  rewrite rfind_from_absent by exact H. lia.
Qed.

(** The tail of a path is what follows its last slash. *)
Lemma split_tail_of_name name :
  no_slash name = true -> snd (PosixPath.split name) = name.
Proof.
  unfold no_slash. intros H. apply negb_true_iff in H.
  unfold PosixPath.split. cbn [snd]. rewrite (rfind_absent "/" name H).
  unfold PosixPath.slice, PosixPath.len. cbn [Z.add Z.to_nat].
  rewrite Z.sub_0_r, Nat2Z.id. apply substring_all.
Qed.

Lemma split_tail_after_slash dir name :
  no_slash name = true -> snd (PosixPath.split (dir ++ "/" ++ name)) = name.
Proof.
  unfold no_slash. intros H. apply negb_true_iff in H.
  unfold PosixPath.split. cbn [snd].
  change (dir ++ "/" ++ name)%string with (dir ++ String "/" name)%string.
  rewrite (rfind_last "/" dir name H).
  unfold PosixPath.slice, PosixPath.len.
  replace (Z.to_nat (Z.of_nat (String.length dir) + 1))
    with (String.length (dir ++ "/")) by (rewrite length_append_s; cbn; lia).
  replace (Z.to_nat (Z.of_nat (String.length (dir ++ String "/" name))
                     - (Z.of_nat (String.length dir) + 1)))
    with (String.length name) by (rewrite length_append_s; cbn; lia).
  change (dir ++ String "/" name)%string with (dir ++ ("/" ++ name))%string.
  rewrite <- append_assoc_s, substring_skip. apply substring_all.
Qed.

Lemma endswith_slash_split s :
  PosixPath.endswith_slash s = true -> exists d, s = (d ++ "/")%string.
Proof.
  induction s as [|a r IH]; [ discriminate | ].
  cbn [PosixPath.endswith_slash]. destruct r as [|b r'].
  - intros H. apply Ascii.eqb_eq in H. subst. exists "". reflexivity.
  - intros H. destruct (IH H) as (d & Hd). exists (String a d).
    cbn [append]. rewrite <- Hd. reflexivity.
Qed.

Lemma startswith_slash_name name :
  no_slash name = true -> PosixPath.startswith_slash name = false.
Proof.
  unfold no_slash. intros H. apply negb_true_iff in H.
  destruct name as [|a r]; [ reflexivity | ].
  rewrite contains_char_cons in H. apply orb_false_elim in H as [Ha _].
  exact Ha.
Qed.

(** X12: the store of a unit is named after its file name alone: the
    directory the unit was found in plays no part, so that units of the
    same name in different directories share one store. *)
Theorem db_name_ignores_directory :
  forall self document_dir filename,
    no_slash filename = true ->
    db_name_for_file self (PosixPath.join document_dir filename)
    = db_name_for_file self filename.
Proof.
  intros self document_dir filename Hname.
  assert (Htail : snd (PosixPath.split (PosixPath.join document_dir filename))
                  = filename).
  { unfold PosixPath.join. rewrite (startswith_slash_name filename Hname).
    destruct (Nat.eqb_spec (String.length document_dir) 0) as [Hlen|Hlen]; cbn [orb].
    - destruct document_dir; [ | discriminate ]. cbn [append].
      apply split_tail_of_name. exact Hname.
    - destruct (PosixPath.endswith_slash document_dir) eqn:Hend.
      + destruct (endswith_slash_split document_dir Hend) as (d & ->).
        rewrite append_assoc_s. apply split_tail_after_slash. exact Hname.
      + apply split_tail_after_slash. exact Hname. }
  unfold db_name_for_file.
  rewrite Htail, (split_tail_of_name filename Hname). reflexivity.
Qed.

(** X12 at a paper of the corpus. *)
Lemma db_name_ignores_directory_witness :
  db_name_for_file Scenario.plain (PosixPath.join "docs" "a.xml")
  = db_name_for_file Scenario.plain "a.xml".
Proof.
  apply (db_name_ignores_directory Scenario.plain "docs" "a.xml").
  reflexivity.
Defined.

(** X13: the store name drops the last extension of the file name and
    nothing else: for a stem that does not consist of dots, the file
    [stem.ext] is stored as [stem] in the output directory, whatever the
    extension, so that files that differ in the extension only share one
    store. *)
Theorem db_name_drops_last_extension :
  forall self stem ext,
    no_slash stem = true ->
    PosixPath.all_dots stem = false ->
    no_slash ext = true ->
    no_dot ext = true ->
    db_name_for_file self (stem ++ "." ++ ext)
    = PosixPath.join (save_root_dir self) stem.
Proof.
  intros self stem ext Hstem Hdots Hext Hnodot.
  assert (Hwhole : no_slash (stem ++ "." ++ ext) = true).
  { unfold no_slash in *. apply negb_true_iff in Hstem, Hext. apply negb_true_iff.
    change (stem ++ "." ++ ext)%string with (stem ++ String "." ext)%string.
    rewrite contains_char_app, contains_char_cons, Hstem, Hext. reflexivity. }
  unfold db_name_for_file. rewrite (split_tail_of_name _ Hwhole). f_equal.
  unfold no_slash, no_dot in *. apply negb_true_iff in Hwhole, Hnodot.
  unfold PosixPath.splitext. rewrite (rfind_absent "/" _ Hwhole).
  change (stem ++ "." ++ ext)%string with (stem ++ String "." ext)%string.
  rewrite (rfind_last "." stem ext Hnodot).
  unfold PosixPath.len, PosixPath.slice.
  replace ((-1 <? Z.of_nat (String.length stem))%Z) with true
    by (symmetry; apply Z.ltb_lt; lia).
  cbn [Z.add Z.opp]. change (-1 + 1)%Z with 0%Z.
  rewrite Z.sub_0_r, Nat2Z.id. cbn [Z.to_nat].
  rewrite substring_take, Hdots. cbn [fst].
  rewrite Z.sub_0_r, Nat2Z.id. apply substring_take.
Qed.

(** X13 at a file name with two extensions. *)
Lemma db_name_drops_last_extension_witness :
  db_name_for_file Scenario.plain ("a.tar" ++ "." ++ "xml") = "out/a.tar".
Proof.
  apply (db_name_drops_last_extension Scenario.plain "a.tar" "xml").
  - reflexivity.
  - reflexivity.
  - reflexivity.
  - reflexivity.
Defined.

(** ** An empty cache directory *)

(** X14: with the empty string as the cache directory there is no cacher,
    though caching counts as asked for: hydration is not attempted, and a
    unit that gets as far as its store is stored and then ends in the
    [AttributeError] of the cache write on the missing cacher, before the
    closing notice and the dispatch block. *)
Theorem empty_cache_dir_fails_after_store :
  forall w self document_path st,
    cache_dir self = Some "" ->
    mem (db_name_for_file self document_path) (st_paths st) = false ->
    let run := extract_paper w self document_path st in
    let db_name := db_name_for_file self document_path in
    exists added,
      st_trace (snd run) = st_trace st ++ added /\
      ~ In (EvHydrate document_path) added /\
      (forall overwrite, ~ In (EvCacheDocument document_path overwrite) added) /\
      st_cached (snd run) = st_cached st /\
      forall recs,
        In (EvDbWrite db_name recs) added ->
        fst run = Raise (AttributeError "cache_document") /\
        store_content db_name (st_stores (snd run)) = Some recs /\
        ~ In (EvPrint (NTook document_path)) added /\
        forall method, ~ In (EvResolve method) added.
Proof.
  intros w self document_path st Hcache Hgate run db_name. subst run db_name.
  rewrite (extract_paper_not_skipped w _ _ _ Hgate).
  unfold bind at 1 2 3. unfold_processor. unfold cacher. rewrite Hcache. cbn.
  replies.
  all: run_dispatch; eexists; (split; [ reflexivity | ]).
  all: split_all; unfold not; intros;
    repeat match goal with H : In _ _ |- _ => in_cases H; try contradiction end;
    try reflexivity.
  all: try match goal with H : EvDbWrite _ _ = EvDbWrite _ _ |- _ =>
             injection H as <- end.
  all: cbn [store_content]; rewrite ?String.eqb_refl; try reflexivity.
  all: try (rewrite String.eqb_refl in *; discriminate).
  all: split_all; unfold not; intros;
    repeat match goal with H : In _ _ |- _ => in_cases H; try contradiction end;
    try reflexivity.
Qed.

(** X14 at the second paper of the corpus. *)
Lemma empty_cache_dir_fails_after_store_witness :
  let run := extract_paper Scenario.corpus without_cacher "docs/b.xml" initial_state in
  fst run = Raise (AttributeError "cache_document") /\
  store_content "out/b" (st_stores (snd run)) = Some ["yield strength"] /\
  ~ In (EvPrint (NTook "docs/b.xml")) (st_trace (snd run)).
Proof.
  intros run.
  destruct (empty_cache_dir_fails_after_store Scenario.corpus without_cacher
              "docs/b.xml" initial_state) as (added & Ht & _ & _ & _ & Hstored).
  - reflexivity.
  - reflexivity.
  - vm_compute in Ht.
    destruct (Hstored ["yield strength"]) as (Hraise & Hstore & Hnotice & _).
    + rewrite <- Ht. cbn [In]. auto 10.
    + split; [ exact Hraise | ]. split; [ exact Hstore | ].
      subst run. cbn [fst snd]. intros Hin. apply Hnotice.
      rewrite <- Ht. vm_compute in Hin. exact Hin.
Defined.
